(** * cdp-sdk-python: the error classifier and a generated model

    A shallow embedding of [cdp/errors.py] (the class [APIError], its
    [from_error] classifier, its [__str__] rendering and the registry
    [ERROR_CODE_TO_ERROR_CLASS]) and of
    [cdp/client/models/webhook_event_filter.py] ([to_dict] / [from_dict]).

    Python values are represented by the inductive [pyvalue]; a [str] is
    the byte string of its UTF-8 encoding; a [dict] with string keys is a
    [gmap string _]; a raised exception is the [Raised] case of [result]. *)

From Stdlib Require Import ZArith String Ascii List Bool Lia.
From Stdlib Require Import DecimalString.
From Stdlib Require DecimalPos DecimalZ.
From Stdlib Require Floats.SpecFloat.
From stdpp Require Import gmap strings list fin_maps.

Set Warnings "-register-all".
Local Open Scope string_scope.
Local Open Scope Z_scope.

(** ** Python values *)

Module Py.

Export SpecFloat.

(** The values [json.loads] can return, which are also the values the
    attributes of an [APIError] can hold: [None], [bool], [int], [float]
    (an IEEE 754 binary64, as [spec_float]), [str], [list], [dict]. *)
Inductive pyvalue : Type :=
  | PyNone
  | PyBool (b : bool)
  | PyInt (n : Z)
  | PyFloat (x : spec_float)
  | PyStr (s : string)
  | PyList (l : list pyvalue)
  | PyDict (d : gmap string pyvalue).

(** The exceptions the modelled code meets. [JSONDecodeError] is
    [json.JSONDecodeError] (its message and position are not modelled);
    in Python it is a subclass of [ValueError], and an [except] clause
    for it catches it alone. *)
Inductive exception : Type :=
  | ValueError (msg : string)
  | AttributeError (msg : string)
  | TypeError (msg : string)
  | KeyError (key : pyvalue)
  | ValidationError (msg : string)
  | JSONDecodeError
  | RecursionError (msg : string).

Inductive result (A : Type) : Type :=
  | Returned (a : A)
  | Raised (e : exception).
Arguments Returned {A} a.
Arguments Raised {A} e.

Global Instance result_ret : MRet result := fun A a => Returned a.
Global Instance result_bind : MBind result := fun A B k r =>
  match r with
  | Returned a => k a
  | Raised e => Raised e
  end.

(** [bool(v)]: Python's truth value testing. *)
Definition truthy (v : pyvalue) : bool :=
  match v with
  | PyNone => false
  | PyBool b => b
  | PyInt n => negb (n =? 0)
  | PyFloat x => match x with S754_zero _ => false | _ => true end
  | PyStr s => match s with EmptyString => false | String _ _ => true end
  | PyList l => match l with [] => false | _ :: _ => true end
  | PyDict d => negb (bool_decide (d = ∅))
  end.

(** [a and b]: [a] when [a] is falsy, otherwise [b]. *)
Definition py_and (a b : pyvalue) : pyvalue :=
  if truthy a then b else a.

(** [not v]. *)
Definition py_not (v : pyvalue) : pyvalue := PyBool (negb (truthy v)).

(** [type(v).__name__]. *)
Definition type_name (v : pyvalue) : string :=
  match v with
  | PyNone => "NoneType"
  | PyBool _ => "bool"
  | PyInt _ => "int"
  | PyFloat _ => "float"
  | PyStr _ => "str"
  | PyList _ => "list"
  | PyDict _ => "dict"
  end.

(** [obj.get(key)] for a [str] key: defined on a [dict] only, where a
    missing key gives [None]; no other value has an attribute [get]. *)
Definition py_get (obj : pyvalue) (key : string) : result pyvalue :=
  match obj with
  | PyDict d => Returned (default PyNone (d !! key))
  | _ => Raised (AttributeError
                   ("'" ++ type_name obj ++ "' object has no attribute 'get'"))
  end.

(** [key in d] for a dict [d] whose keys are all [str]: a [list] or a
    [dict] is unhashable; any other value that is not a [str] hashes and
    compares unequal to every key. *)
Definition py_in {V : Type} (key : pyvalue) (d : gmap string V) : result bool :=
  match key with
  | PyStr s => Returned (bool_decide (is_Some (d !! s)))
  | PyList _ => Raised (TypeError "unhashable type: 'list'")
  | PyDict _ => Raised (TypeError "unhashable type: 'dict'")
  | _ => Returned false
  end.

(** [d[key]] for a dict [d] whose keys are all [str]. *)
Definition py_subscript {V : Type} (d : gmap string V) (key : pyvalue) : result V :=
  match key with
  | PyStr s =>
      match d !! s with
      | Some v => Returned v
      | None => Raised (KeyError key)
      end
  | PyList _ => Raised (TypeError "unhashable type: 'list'")
  | PyDict _ => Raised (TypeError "unhashable type: 'dict'")
  | _ => Raised (KeyError key)
  end.

(** Whether [hash(v)] is defined: a [list] and a [dict] are unhashable. *)
Definition hashable (v : pyvalue) : bool :=
  match v with
  | PyList _ | PyDict _ => false
  | _ => true
  end.

(** [sub in s] for two [str]: [sub] occurs in [s] as a substring. *)
Fixpoint str_contains (sub s : string) : bool :=
  if String.prefix sub s then true
  else match s with
       | String _ r => str_contains sub r
       | EmptyString => false
       end.

(** The characters of a [str], in order. *)
Fixpoint chars (s : string) : list ascii :=
  match s with
  | EmptyString => []
  | String a r => a :: chars r
  end.

(** [str(n)] for an [int]. *)
Definition str_of_int (n : Z) : string := NilZero.string_of_int (Z.to_int n).

End Py.

(** ** A reference decoder for [json.loads]

    [json.loads] is Python's standard library and not part of the
    repository; the classifier below is modelled over an arbitrary
    decoder. This module gives one concrete decoder, following the
    grammar of CPython's [json.decoder] / [json.scanner] (strict mode,
    default hooks), so that the classifier can be run on concrete bodies.
    Besides [json.JSONDecodeError] it raises what CPython's decoder lets
    escape: [ValueError] on an integer literal longer than the
    interpreter's limit for integer string conversion, and
    [RecursionError] on containers nested deeper than the interpreter
    allows. *)

Module json.

Import Py.

Local Open Scope char_scope.

(** The double quote is written by its code, ["034"]. *)

Definition is_ws (c : ascii) : bool :=
  Ascii.eqb c " " || Ascii.eqb c "009" || Ascii.eqb c "010" || Ascii.eqb c "013".

Fixpoint skip_ws (s : string) : string :=
  match s with
  | String c r => if is_ws c then skip_ws r else s
  | EmptyString => s
  end.

(** [s] without the prefix [p], when [s] starts with [p]. *)
Fixpoint strip_prefix (p s : string) : option string :=
  match p, s with
  | EmptyString, _ => Some s
  | String a p', String b s' => if Ascii.eqb a b then strip_prefix p' s' else None
  | String _ _, EmptyString => None
  end.

Definition digit_val (c : ascii) : option Z :=
  let n := Z.of_N (N_of_ascii c) in
  (if (48 <=? n) && (n <=? 57) then Some (n - 48) else None)%Z.

Definition hex_val (c : ascii) : option Z :=
  let n := Z.of_N (N_of_ascii c) in
  (if (48 <=? n) && (n <=? 57) then Some (n - 48)
   else if (65 <=? n) && (n <=? 70) then Some (n - 55)
   else if (97 <=? n) && (n <=? 102) then Some (n - 87)
   else None)%Z.

(** The longest run of decimal digits at the head of [s], most
    significant first, and what follows it. *)
Fixpoint span_digits (s : string) : list Z * string :=
  match s with
  | String c r =>
      match digit_val c with
      | Some d => let '(ds, r') := span_digits r in (d :: ds, r')
      | None => ([], s)
      end
  | EmptyString => ([], s)
  end.

Definition Z_of_digits (ds : list Z) : Z :=
  fold_left (fun acc d => 10 * acc + d)%Z ds 0%Z.

(** [m * 10 ^ e] for [m > 0], rounded to the nearest binary64 (ties to
    even), as [float()] does on a decimal literal. A negative exponent is
    a division, carried out with enough extra bits and a sticky bit. *)
Definition float_of_decimal (neg : bool) (m e : Z) : spec_float :=
  (let sgn x := if neg then - x else x in
   if m =? 0 then S754_zero neg
   else if 0 <=? e then binary_normalize 53 1024 (sgn (m * 10 ^ e)) 0 neg
   else
     let d := 10 ^ (- e) in
     let k := Z.max 0 (64 + Z.log2_up d - Z.log2 m) in
     let n := m * 2 ^ k in
     let sticky := if n mod d =? 0 then 0 else 1 in
     binary_normalize 53 1024 (sgn (2 * (n / d) + sticky)) (- k - 1) neg)%Z.

Section Interpreter.

(** Two settings of the interpreter that the decoder meets:
    [sys.get_int_max_str_digits()] (4300 unless changed; 0 for no
    limit), and the number of nested calls the recursion limit still
    leaves at the call of [json.loads]. *)
Variable int_max_str_digits : nat.
Variable recursion_room : nat.

(** [int(literal)] on the digits of an integer literal: [ValueError]
    when the limit is set and the literal has more digits than it. *)
Definition int_of_literal (neg : bool) (ds : list Z) : result pyvalue :=
  if ((0 <? int_max_str_digits) && (int_max_str_digits <? length ds))%nat then
    Raised (ValueError
      ("Exceeds the limit (" ++ str_of_int (Z.of_nat int_max_str_digits)
         ++ " digits) for integer string conversion: value has "
         ++ str_of_int (Z.of_nat (length ds))
         ++ " digits; use sys.set_int_max_str_digits() to increase the limit")%string)
  else
    let n := Z_of_digits ds in
    Returned (PyInt (if neg then - n else n)%Z).

(** [NUMBER_RE]: an optional minus sign, then a single 0 or a run of
    digits that does not start with 0; then an optional fraction (a dot
    and at least one digit) and an optional exponent (e or E, an optional
    sign, at least one digit). The value is an [int] unless a fraction or
    an exponent is there; the conversion to [int] can raise. *)
Definition scan_number (s : string) : option (result pyvalue * string) :=
  let '(neg, s1) := match s with
                    | String "-" r => (true, r)
                    | _ => (false, s)
                    end in
  let int_part :=
    match s1 with
    | String "0" r => Some ([0%Z], r)
    | _ => match span_digits s1 with
           | ([], _) => None
           | (ds, r) => Some (ds, r)
           end
    end in
  match int_part with
  | None => None
  | Some (ids, s2) =>
      let '(fds, s3) :=
        match s2 with
        | String "." r => match span_digits r with
                          | ([], _) => ([], s2)
                          | (ds, r') => (ds, r')
                          end
        | _ => ([], s2)
        end in
      let has_frac := negb (String.eqb s2 s3) in
      let exp_part :=
        match s3 with
        | String c r =>
            if Ascii.eqb c "e" || Ascii.eqb c "E" then
              let '(eneg, r1) := match r with
                                 | String "-" r' => (true, r')
                                 | String "+" r' => (false, r')
                                 | _ => (false, r)
                                 end in
              match span_digits r1 with
              | ([], _) => None
              | (ds, r2) => Some ((if eneg then - Z_of_digits ds else Z_of_digits ds)%Z, r2)
              end
            else None
        | EmptyString => None
        end in
      match has_frac, exp_part with
      | false, None =>
          Some (int_of_literal neg ids, s2)
      | _, _ =>
          let '(e, rest) := match exp_part with
                            | Some (e, r) => (e, r)
                            | None => (0%Z, s3)
                            end in
          let m := Z_of_digits (ids ++ fds) in
          Some (Returned (PyFloat (float_of_decimal neg m (e - Z.of_nat (length fds))%Z)),
                rest)
      end
  end.

Definition byte (n : Z) : ascii := ascii_of_N (Z.to_N n).

(** [chr(cp)], as the bytes of its UTF-8 encoding. *)
Definition utf8 (cp : Z) : string :=
  (if cp <? 128 then String (byte cp) EmptyString
   else if cp <? 2048 then
     String (byte (192 + cp / 64)) (String (byte (128 + cp mod 64)) EmptyString)
   else if cp <? 65536 then
     String (byte (224 + cp / 4096))
       (String (byte (128 + (cp / 64) mod 64))
          (String (byte (128 + cp mod 64)) EmptyString))
   else
     String (byte (240 + cp / 262144))
       (String (byte (128 + (cp / 4096) mod 64))
          (String (byte (128 + (cp / 64) mod 64))
             (String (byte (128 + cp mod 64)) EmptyString))))%Z.

(** [_decode_uXXXX]: exactly four hexadecimal digits. *)
Definition decode_uXXXX (s : string) : option (Z * string) :=
  match s with
  | String a (String b (String c (String d r))) =>
      match hex_val a, hex_val b, hex_val c, hex_val d with
      | Some x, Some y, Some z, Some w => Some ((((x * 16 + y) * 16 + z) * 16 + w)%Z, r)
      | _, _, _, _ => None
      end
  | _ => None
  end.

(** [scanstring], after the opening quote: the decoded [str] and what
    follows the closing quote. Control characters are refused (strict). *)
Fixpoint scanstring (fuel : nat) (s : string) : option (string * string) :=
  match fuel with
  | O => None
  | S fuel =>
      match s with
      | EmptyString => None
      | String c r =>
          if Ascii.eqb c "034" then Some (EmptyString, r)
          else if (N_of_ascii c <? 32)%N then None
          else if Ascii.eqb c "\" then
            match r with
            | EmptyString => None
            | String e r1 =>
                let plain (x : ascii) :=
                  match scanstring fuel r1 with
                  | Some (t, r') => Some (String x t, r')
                  | None => None
                  end in
                if Ascii.eqb e "034" then plain "034"
                else if Ascii.eqb e "\" then plain "\"
                else if Ascii.eqb e "/" then plain "/"
                else if Ascii.eqb e "b" then plain "008"
                else if Ascii.eqb e "f" then plain "012"
                else if Ascii.eqb e "n" then plain "010"
                else if Ascii.eqb e "r" then plain "013"
                else if Ascii.eqb e "t" then plain "009"
                else if Ascii.eqb e "u" then
                  match decode_uXXXX r1 with
                  | None => None
                  | Some (uni, r2) =>
                      let '(cp, r3) :=
                        if ((55296 <=? uni) && (uni <=? 56319))%Z then
                          match strip_prefix "\u" r2 with
                          | Some r2' =>
                              match decode_uXXXX r2' with
                              | Some (uni2, r2'') =>
                                  if ((56320 <=? uni2) && (uni2 <=? 57343))%Z
                                  then ((65536 + (uni - 55296) * 1024 + (uni2 - 56320))%Z, r2'')
                                  else (uni, r2)
                              | None => (uni, r2)
                              end
                          | None => (uni, r2)
                          end
                        else (uni, r2) in
                      match scanstring fuel r3 with
                      | Some (t, r') => Some (String.append (utf8 cp) t, r')
                      | None => None
                      end
                  end
                else None
            end
          else
            match scanstring fuel r with
            | Some (t, r') => Some (String c t, r')
            | None => None
            end
      end
  end.

(** [dict(pairs)]: a later pair replaces an earlier one with its key. *)
Definition dict_of_pairs (pairs : list (string * pyvalue)) : gmap string pyvalue :=
  list_to_map (reverse pairs).

(** [scan_once], with [JSONArray] and [JSONObject] after their first
    character. [room] is the number of nested containers the recursion
    limit still allows: the scanner enters a recursive call at every
    array and object. [fuel] bounds the calls of this definition; every
    second call at least consumes a character. *)
Fixpoint scan_once (fuel room : nat) (s : string) {struct fuel}
    : result (pyvalue * string) :=
  match fuel with
  | O => Raised JSONDecodeError
  | S fuel =>
      match s with
      | EmptyString => Raised JSONDecodeError
      | String c r =>
          if Ascii.eqb c "034" then
            match scanstring (String.length r) r with
            | Some (t, r') => Returned (PyStr t, r')
            | None => Raised JSONDecodeError
            end
          else if Ascii.eqb c "{" then
            match room with
            | O => Raised (RecursionError
                     "maximum recursion depth exceeded while decoding a JSON object from a unicode string")
            | S room =>
                match skip_ws r with
                | String "}" r' => Returned (PyDict ∅, r')
                | r' =>
                    '(pairs, r'') ← JSONObject fuel room r';
                    Returned (PyDict (dict_of_pairs pairs), r'')
                end
            end
          else if Ascii.eqb c "[" then
            match room with
            | O => Raised (RecursionError
                     "maximum recursion depth exceeded while decoding a JSON array from a unicode string")
            | S room =>
                match skip_ws r with
                | String "]" r' => Returned (PyList [], r')
                | r' =>
                    '(vs, r'') ← JSONArray fuel room r';
                    Returned (PyList vs, r'')
                end
            end
          else
            match strip_prefix "null" s, strip_prefix "true" s, strip_prefix "false" s with
            | Some r', _, _ => Returned (PyNone, r')
            | _, Some r', _ => Returned (PyBool true, r')
            | _, _, Some r' => Returned (PyBool false, r')
            | None, None, None =>
                match scan_number s with
                | Some (number, r') => v ← number; Returned (v, r')
                | None =>
                    match strip_prefix "NaN" s, strip_prefix "Infinity" s,
                          strip_prefix "-Infinity" s with
                    | Some r', _, _ => Returned (PyFloat S754_nan, r')
                    | _, Some r', _ => Returned (PyFloat (S754_infinity false), r')
                    | _, _, Some r' => Returned (PyFloat (S754_infinity true), r')
                    | None, None, None => Raised JSONDecodeError
                    end
                end
            end
      end
  end
with JSONArray (fuel room : nat) (s : string) {struct fuel}
    : result (list pyvalue * string) :=
  match fuel with
  | O => Raised JSONDecodeError
  | S fuel =>
      '(v, r) ← scan_once fuel room s;
      match skip_ws r with
      | String "]" r' => Returned ([v], r')
      | String "," r' =>
          '(vs, r'') ← JSONArray fuel room (skip_ws r');
          Returned (v :: vs, r'')
      | _ => Raised JSONDecodeError
      end
  end
with JSONObject (fuel room : nat) (s : string) {struct fuel}
    : result (list (string * pyvalue) * string) :=
  match fuel with
  | O => Raised JSONDecodeError
  | S fuel =>
      match s with
      | String "034" r =>
          match scanstring (String.length r) r with
          | None => Raised JSONDecodeError
          | Some (key, r1) =>
              match skip_ws r1 with
              | String ":" r2 =>
                  '(v, r3) ← scan_once fuel room (skip_ws r2);
                  match skip_ws r3 with
                  | String "}" r' => Returned ([(key, v)], r')
                  | String "," r' =>
                      '(pairs, r'') ← JSONObject fuel room (skip_ws r');
                      Returned ((key, v) :: pairs, r'')
                  | _ => Raised JSONDecodeError
                  end
              | _ => Raised JSONDecodeError
              end
          end
      | _ => Raised JSONDecodeError
      end
  end.

(** [json.loads(s)] under these settings: one value between optional
    whitespace and nothing else. *)
Definition decode (s : string) : result pyvalue :=
  '(v, r) ← scan_once (2 * String.length s + 2) recursion_room (skip_ws s);
  match skip_ws r with
  | EmptyString => Returned v
  | String _ _ => Raised JSONDecodeError
  end.

End Interpreter.

(** [json.loads(s)] with the interpreter's defaults: at most 4300 digits
    in an integer literal, and a recursion limit of 1000, all of it
    taken as free at the call (the frames already on the stack, which
    lower the room by a few calls, are not modelled). *)
Definition loads (s : string) : result pyvalue := decode 4300 1000 s.

End json.

(** ** cdp/errors.py *)

Module errors.

Import Py.

(** Modelled from the spec: the class [cdp.client.exceptions.ApiException]
    is not among the sources. The specification gives the transport
    failure a [status], an integer, and a [body], a string or absent;
    these are the two attributes the classifier reads. *)
Record ApiException : Type := {
  status : Z;
  body : option string
}.

(** The argument handed to [from_error]: an [ApiException] instance, or
    any other object (for which [isinstance] is false). *)
Inductive argument : Type :=
  | IsApiException (err : ApiException)
  | NotApiException (obj : pyvalue).

(** The class of a typed error: the base class [APIError] and its
    subclasses, none of which overrides anything. *)
Inductive error_class : Type :=
  | APIError
  | UnimplementedError
  | UnauthorizedError
  | InternalError
  | NotFoundError
  | InvalidWalletIDError
  | InvalidAddressIDError
  | InvalidWalletError
  | InvalidAddressError
  | InvalidAmountError
  | InvalidTransferIDError
  | InvalidPageError
  | InvalidLimitError
  | AlreadyExistsError
  | MalformedRequestError
  | UnsupportedAssetError
  | InvalidAssetIDError
  | InvalidDestinationError
  | InvalidNetworkIDError
  | ResourceExhaustedError
  | FaucetLimitReachedError
  | InvalidSignedPayloadError
  | InvalidTransferStatusError
  | NetworkFeatureUnsupportedError.

Global Instance error_class_eq_dec : EqDecision error_class.
Proof. solve_decision. Defined.

(** The items of the dict literal [ERROR_CODE_TO_ERROR_CLASS], in source
    order. *)
Definition ERROR_CODE_TO_ERROR_CLASS_items : list (string * error_class) :=
  [ ("unimplemented", UnimplementedError);
    ("unauthorized", UnauthorizedError);
    ("internal", InternalError);
    ("not_found", NotFoundError);
    ("invalid_wallet_id", InvalidWalletIDError);
    ("invalid_address_id", InvalidAddressIDError);
    ("invalid_wallet", InvalidWalletError);
    ("invalid_address", InvalidAddressError);
    ("invalid_amount", InvalidAmountError);
    ("invalid_transfer_id", InvalidTransferIDError);
    ("invalid_page_token", InvalidPageError);
    ("invalid_page_limit", InvalidLimitError);
    ("already_exists", AlreadyExistsError);
    ("malformed_request", MalformedRequestError);
    ("unsupported_asset", UnsupportedAssetError);
    ("invalid_asset_id", InvalidAssetIDError);
    ("invalid_destination", InvalidDestinationError);
    ("invalid_network_id", InvalidNetworkIDError);
    ("resource_exhausted", ResourceExhaustedError);
    ("faucet_limit_reached", FaucetLimitReachedError);
    ("invalid_signed_payload", InvalidSignedPayloadError);
    ("invalid_transfer_status", InvalidTransferStatusError);
    ("network_feature_unsupported", NetworkFeatureUnsupportedError) ].

Definition ERROR_CODE_TO_ERROR_CLASS : gmap string error_class :=
  list_to_map ERROR_CODE_TO_ERROR_CLASS_items.

(** An instance of [APIError] or of one of its subclasses: its class and
    the four attributes [__init__] sets. (The exception's [args], set
    from [str(err)], are read by none of the modelled methods.) *)
Record api_error : Type := {
  class_of : error_class;
  _http_code : Z;
  _api_code : pyvalue;
  _api_message : pyvalue;
  _handled : bool
}.

(** [cls(err, code, message, unhandled)], with [__init__] inherited by
    every subclass. *)
Definition __init__ (cls : error_class) (err : ApiException)
    (code message : pyvalue) (unhandled : bool) : api_error :=
  {| class_of := cls;
     _http_code := status err;
     _api_code := code;
     _api_message := message;
     _handled := truthy (py_and code (py_and message (py_not (PyBool unhandled)))) |}.

Definition http_code (self : api_error) : Z := _http_code self.
Definition api_code (self : api_error) : pyvalue := _api_code self.
Definition api_message (self : api_error) : pyvalue := _api_message self.
Definition handled (self : api_error) : bool := _handled self.

Section Classifier.

(** [json.loads] on a [str]: it returns the decoded value or raises,
    [json.JSONDecodeError] or another exception. The classifier is
    modelled over any decoder. *)
Variable json_loads : string -> result pyvalue.

(** The classmethod [from_error], called on the class [cls]. *)
Definition from_error (cls : error_class) (err : argument) : result api_error :=
  match err with
  | NotApiException _ => Raised (ValueError "argument must be an ApiException")
  | IsApiException err =>
      match body err with
      | None | Some EmptyString => Returned (__init__ cls err PyNone PyNone false)
      | Some raw =>
          match json_loads raw with
          | Raised JSONDecodeError => Returned (__init__ cls err PyNone PyNone false)
          | Raised ex => Raised ex
          | Returned body =>
              message ← py_get body "message";
              code ← py_get body "code";
              known ← py_in code ERROR_CODE_TO_ERROR_CLASS;
              if known : bool then
                cls' ← py_subscript ERROR_CODE_TO_ERROR_CLASS code;
                Returned (__init__ cls' err code message false)
              else
                Returned (__init__ cls err code message true)
          end
      end
  end.

End Classifier.

Section Rendering.

(** [repr] of a [float], a [list] or a [dict], which [str] and the
    f-string fields fall back on; CPython's algorithm is not reproduced. *)
Variable py_repr : pyvalue -> string.

(** What an f-string field [{v}] renders. *)
Definition py_str (v : pyvalue) : string :=
  match v with
  | PyNone => "None"
  | PyBool true => "True"
  | PyBool false => "False"
  | PyInt n => str_of_int n
  | PyStr s => s
  | PyFloat _ | PyList _ | PyDict _ => py_repr v
  end.

Definition __str__ (self : api_error) : string :=
  if handled self then
    "APIError(http_code=" ++ str_of_int (http_code self)
      ++ ", api_code=" ++ py_str (api_code self)
      ++ ", api_message=" ++ py_str (api_message self) ++ ")"
  else
    "APIError(http_code=" ++ str_of_int (http_code self)
      ++ ", api_code=" ++ py_str (api_code self)
      ++ ", api_message=" ++ py_str (api_message self) ++ ", unhandled=True)".

End Rendering.

End errors.

(** ** cdp/client/models/webhook_event_filter.py *)

Module webhook_event_filter.

Import Py.

(** An instance of the pydantic model: its three [Optional[StrictStr]]
    fields and [model_fields_set], the names given at construction. *)
Record WebhookEventFilter : Type := {
  contract_address : option string;
  from_address : option string;
  to_address : option string;
  model_fields_set : gset string
}.

Definition __properties : list string :=
  ["contract_address"; "from_address"; "to_address"].

(** pydantic's validation of an [Optional[StrictStr]] field: [None] or a
    [str], nothing is coerced. *)
Definition validate_field (v : pyvalue) : result (option string) :=
  match v with
  | PyNone => Returned None
  | PyStr s => Returned (Some s)
  | _ => Raised (ValidationError "Input should be a valid string")
  end.

(** A field of the input mapping: validated when given, the default
    [None] otherwise. *)
Definition field_of (data : gmap string pyvalue) (name : string) : result (option string) :=
  match data !! name with
  | Some v => validate_field v
  | None => Returned None
  end.

(** The objects [from_dict] and [model_validate] are handed here: a
    value of [pyvalue], or an instance of the model itself. *)
Inductive object : Type :=
  | Value (v : pyvalue)
  | Instance (self : WebhookEventFilter).

Coercion Value : pyvalue >-> object.

(** [cls.model_validate(obj)], which is also what the constructor does
    on its keyword arguments. A [dict] is validated field by field, and
    keys that name no field are ignored (the model keeps pydantic's
    default for extra keys); an instance of the model is returned as it
    is (pydantic's default is not to revalidate instances); any other
    value is refused. *)
Definition model_validate (obj : object) : result WebhookEventFilter :=
  match obj with
  | Value (PyDict data) =>
      c ← field_of data "contract_address";
      f ← field_of data "from_address";
      t ← field_of data "to_address";
      Returned {| contract_address := c;
                  from_address := f;
                  to_address := t;
                  model_fields_set :=
                    filter (fun name => name ∈ __properties) (dom data) |}
  | Instance self => Returned self
  | Value _ => Raised (ValidationError "Input should be a valid dictionary or instance of WebhookEventFilter")
  end.

Definition __init__ (data : gmap string pyvalue) : result WebhookEventFilter :=
  model_validate (PyDict data).

(** One item of [model_dump(exclude_none=True)]: a field that holds
    [None] is left out. *)
Definition dump_field (name : string) (v : option string)
    (d : gmap string pyvalue) : gmap string pyvalue :=
  match v with
  | Some s => <[name := PyStr s]> d
  | None => d
  end.

(** [self.model_dump] with [by_alias=True], [exclude=excluded_fields]
    and [exclude_none=True]; the fields have no alias. *)
Definition model_dump (self : WebhookEventFilter) (exclude : gset string) : gmap string pyvalue :=
  filter (fun kv => kv.1 ∉ exclude)
    (dump_field "contract_address" (contract_address self)
       (dump_field "from_address" (from_address self)
          (dump_field "to_address" (to_address self) ∅))).

Definition to_dict (self : WebhookEventFilter) : gmap string pyvalue :=
  let excluded_fields : gset string := ∅ in
  let _dict := model_dump self excluded_fields in
  _dict.

(** [obj.get(key)] on a dict. *)
Definition dict_get (obj : gmap string pyvalue) (key : string) : pyvalue :=
  default PyNone (obj !! key).

Definition from_dict (obj : object) : result (option WebhookEventFilter) :=
  match obj with
  | Value PyNone => Returned None
  | Value (PyDict d) =>
      _obj ← model_validate (PyDict
                (<["contract_address" := dict_get d "contract_address"]>
                   (<["from_address" := dict_get d "from_address"]>
                      (<["to_address" := dict_get d "to_address"]> ∅))));
      Returned (Some _obj)
  | _ =>
      _obj ← model_validate obj;
      Returned (Some _obj)
  end.

Section JsonText.

(** [json.dumps] and [json.loads], of Python's standard library:
    [json.loads] returns the decoded value or raises. *)
Variable json_dumps : pyvalue -> string.
Variable json_loads : string -> result pyvalue.

Definition to_json (self : WebhookEventFilter) : string :=
  json_dumps (PyDict (to_dict self)).

Definition from_json (json_str : string) : result (option WebhookEventFilter) :=
  obj ← json_loads json_str;
  from_dict (Value obj).

End JsonText.

(** [getattr(self, name)] for the name of a property; [None] for any
    other name. *)
Definition field (x : WebhookEventFilter) (name : string) : option string :=
  if decide (name = "contract_address") then contract_address x
  else if decide (name = "from_address") then from_address x
  else if decide (name = "to_address") then to_address x
  else None.

(** [x == y] on two instances: pydantic compares the field values, and
    not [model_fields_set]. *)
Definition model_eq (x y : WebhookEventFilter) : Prop :=
  contract_address x = contract_address y
  /\ from_address x = from_address y
  /\ to_address x = to_address y.

End webhook_event_filter.

Coercion webhook_event_filter.Value : Py.pyvalue >-> webhook_event_filter.object.

(** ** Vocabulary of the specification *)

Module spec.

(** The 23 codes of the registry, as the specification lists them. *)
Definition registry_codes : list string :=
  [ "unimplemented"; "unauthorized"; "internal"; "not_found";
    "invalid_wallet_id"; "invalid_address_id"; "invalid_wallet";
    "invalid_address"; "invalid_amount"; "invalid_transfer_id";
    "invalid_page_token"; "invalid_page_limit"; "already_exists";
    "malformed_request"; "unsupported_asset"; "invalid_asset_id";
    "invalid_destination"; "invalid_network_id"; "resource_exhausted";
    "faucet_limit_reached"; "invalid_signed_payload";
    "invalid_transfer_status"; "network_feature_unsupported" ].

(** A JSON text written with apostrophes for its double quotes. *)
Fixpoint quoted (s : string) : string :=
  match s with
  | EmptyString => EmptyString
  | String c r =>
      String (if Ascii.eqb c "'" then "034"%char else c) (quoted r)
  end.

(** [n] copies of a character. *)
Fixpoint repeated (n : nat) (c : ascii) : string :=
  match n with
  | O => EmptyString
  | S n => String c (repeated n c)
  end.

(** The transport error of a failed call: a status and a body, the body
    written with apostrophes. *)
Definition failure (status : Z) (body : string) : errors.argument :=
  errors.IsApiException
    {| errors.status := status; errors.body := Some (quoted body) |}.

(** The marker the rendering of an unhandled error carries. *)
Definition unhandled_marker : string := "unhandled=True".

End spec.

(** * Properties *)

Import Py errors spec.

(** ** The registry *)

Lemma registry_items_NoDup : NoDup (ERROR_CODE_TO_ERROR_CLASS_items.*1).
Proof. compute_done. Qed.

Lemma registry_lookup (c : string) (cls : error_class) :
  ERROR_CODE_TO_ERROR_CLASS !! c = Some cls
  <-> (c, cls) ∈ ERROR_CODE_TO_ERROR_CLASS_items.
Proof.
  unfold ERROR_CODE_TO_ERROR_CLASS. symmetry.
  apply elem_of_list_to_map. exact registry_items_NoDup.
Qed.

Lemma registry_no_empty_code : ERROR_CODE_TO_ERROR_CLASS !! "" = None.
Proof. vm_compute. reflexivity. Qed.

Lemma registry_code_truthy (c : string) (cls : error_class) :
  ERROR_CODE_TO_ERROR_CLASS !! c = Some cls -> truthy (PyStr c) = true.
Proof.
  intros H. destruct c as [|a c]; [|reflexivity].
  rewrite registry_no_empty_code in H. discriminate.
Qed.

(** The registry is a closed table: the proofs below use it through
    [registry_lookup] and evaluation, and never unfold it by [simpl]. *)
Local Opaque ERROR_CODE_TO_ERROR_CLASS.

(** ** [__init__] *)

Lemma handled_init (cls : error_class) (err : ApiException)
    (code message : pyvalue) (unhandled : bool) :
  handled (__init__ cls err code message unhandled)
  = truthy code && truthy message && negb unhandled.
Proof.
  unfold handled, __init__, py_and, py_not; simpl.
  destruct (truthy code) eqn:Hc; simpl.
  - destruct (truthy message) eqn:Hm; simpl; [|exact Hm].
    destruct unhandled; reflexivity.
  - exact Hc.
Qed.

(** ** The classifier *)

Section ClassifierFacts.

Variable json_loads : string -> result pyvalue.

(** What [from_error] computes once the body has decoded to a dict. *)
Lemma from_error_dict (cls : error_class) (S : Z) (raw : string)
    (d : gmap string pyvalue) :
  raw <> "" ->
  json_loads raw = Returned (PyDict d) ->
  from_error json_loads cls (IsApiException {| status := S; body := Some raw |})
  = let message := default PyNone (d !! "message") in
    let code := default PyNone (d !! "code") in
    known ← py_in code ERROR_CODE_TO_ERROR_CLASS;
    if known : bool then
      cls' ← py_subscript ERROR_CODE_TO_ERROR_CLASS code;
      Returned (__init__ cls' {| status := S; body := Some raw |} code message false)
    else
      Returned (__init__ cls {| status := S; body := Some raw |} code message true).
Proof.
  intros Hne Hd. unfold from_error; simpl.
  destruct raw as [|a raw]; [congruence|].
  rewrite Hd. reflexivity.
Qed.

(** A body that decodes to a dict whose code is a key of the registry:
    the registered class, with the code and message attached, handled
    exactly when the message is truthy. *)
Lemma from_error_registered (cls cls' : error_class) (S : Z) (raw : string)
    (d : gmap string pyvalue) (C : string) :
  raw <> "" ->
  json_loads raw = Returned (PyDict d) ->
  d !! "code" = Some (PyStr C) ->
  ERROR_CODE_TO_ERROR_CLASS !! C = Some cls' ->
  from_error json_loads cls (IsApiException {| status := S; body := Some raw |})
  = Returned {| class_of := cls';
                _http_code := S;
                _api_code := PyStr C;
                _api_message := default PyNone (d !! "message");
                _handled := truthy (default PyNone (d !! "message")) |}.
Proof.
  intros Hne Hd Hc Hreg.
  rewrite (from_error_dict cls S raw d Hne Hd). rewrite Hc; simpl.
  rewrite Hreg; simpl.
  unfold __init__. do 2 f_equal. unfold py_and, py_not.
  rewrite (registry_code_truthy C cls' Hreg).
  destruct (truthy (default PyNone (d !! "message"))) eqn:Hm; simpl; congruence.
Qed.

(** A body that decodes to a dict whose code is a string outside the
    registry: the class [from_error] was called on, never handled. *)
Lemma from_error_unregistered (cls : error_class) (S : Z) (raw : string)
    (d : gmap string pyvalue) (c : string) :
  raw <> "" ->
  json_loads raw = Returned (PyDict d) ->
  d !! "code" = Some (PyStr c) ->
  ERROR_CODE_TO_ERROR_CLASS !! c = None ->
  from_error json_loads cls (IsApiException {| status := S; body := Some raw |})
  = Returned {| class_of := cls;
                _http_code := S;
                _api_code := PyStr c;
                _api_message := default PyNone (d !! "message");
                _handled := false |}.
Proof.
  intros Hne Hd Hc Hreg.
  rewrite (from_error_dict cls S raw d Hne Hd). rewrite Hc; simpl.
  rewrite bool_decide_eq_false_2 by (rewrite Hreg; intros [? ?]; discriminate).
  simpl. unfold __init__. f_equal. f_equal.
  change (handled (__init__ cls {| status := S; body := Some raw |} (PyStr c)
                     (default PyNone (d !! "message")) true) = false).
  rewrite handled_init. rewrite andb_false_r. reflexivity.
Qed.

End ClassifierFacts.

Section ClassifierClaims.

Variable json_loads : string -> result pyvalue.

(** Every way [from_error] returns on an [ApiException]: the bare error
    of the absent, empty or undecodable body, or the error built from the
    [code] and [message] of a body that decoded to a dict. *)
Lemma from_error_returned_inv (cls : error_class) (err : ApiException) (e : api_error) :
  from_error json_loads cls (IsApiException err) = Returned e ->
  (e = __init__ cls err PyNone PyNone false
   /\ (body err = None \/ body err = Some ""
       \/ exists raw, body err = Some raw /\ json_loads raw = Raised JSONDecodeError))
  \/ (exists raw d,
        raw <> "" /\ body err = Some raw /\ json_loads raw = Returned (PyDict d)
        /\ let code := default PyNone (d !! "code") in
           let message := default PyNone (d !! "message") in
           (exists C cls',
              code = PyStr C /\ ERROR_CODE_TO_ERROR_CLASS !! C = Some cls'
              /\ e = __init__ cls' err code message false)
           \/ ((forall C, code = PyStr C -> ERROR_CODE_TO_ERROR_CLASS !! C = None)
               /\ e = __init__ cls err code message true)).
Proof.
  destruct err as [S b]. unfold from_error; simpl.
  destruct b as [raw|]; [|intros [= <-]; left; auto].
  destruct raw as [|a raw]; [intros [= <-]; left; auto|].
  destruct (json_loads (String a raw)) as [v|ex] eqn:Hv;
    [|destruct ex; try discriminate;
      intros [= <-]; left; split; [reflexivity|]; right; right; eauto].
  destruct v as [| | | | |l|d]; simpl; try discriminate.
  intros H. right. exists (String a raw), d.
  split; [discriminate|]. split; [reflexivity|]. split; [exact Hv|].
  destruct (default PyNone (d !! "code")) as [| | | |C| |] eqn:Hcode; simpl in H;
    try discriminate;
    try (injection H as <-; right; split; [intros ? [=]|reflexivity]).
  destruct (ERROR_CODE_TO_ERROR_CLASS !! C) as [cls'|] eqn:Hreg.
  - rewrite bool_decide_eq_true_2 in H by eauto. simpl in H. injection H as <-.
    left. exists C, cls'. auto.
  - rewrite bool_decide_eq_false_2 in H by (intros [? ?]; discriminate).
    simpl in H. injection H as <-.
    right. split; [|reflexivity]. intros C' [= <-]. exact Hreg.
Qed.

(** C1 (amended): for a code [C] of the registry and a message string [m]
    that is not empty, classifying status [S] with a body that decodes to
    a dict holding code [C] and message [m] returns an error of the class
    the registry maps [C] to, with [handled = True], [api_code = C],
    [api_message = m] and [http_code = S]. *)
Theorem from_error_known_code_message (S : Z) (raw : string)
    (d : gmap string pyvalue) (C m : string) (cls' : error_class) :
  raw <> "" ->
  json_loads raw = Returned (PyDict d) ->
  d !! "code" = Some (PyStr C) ->
  d !! "message" = Some (PyStr m) ->
  ERROR_CODE_TO_ERROR_CLASS !! C = Some cls' ->
  m <> "" ->
  exists e,
    from_error json_loads APIError (IsApiException {| status := S; body := Some raw |})
    = Returned e
    /\ class_of e = cls' /\ handled e = true
    /\ api_code e = PyStr C /\ api_message e = PyStr m /\ http_code e = S.
Proof.
  intros Hne Hd Hc Hm Hreg Hm'.
  eexists. split.
  - apply (from_error_registered json_loads APIError cls' S raw d C); assumption.
  - rewrite Hm; simpl. repeat split; try reflexivity.
    unfold handled; simpl. destruct m; [congruence|reflexivity].
Qed.

(** C2 (amended): an error returned by classification is handled if and
    only if the body was not empty and decoded to a dict whose [code] is
    a key of the registry and whose [message] is there and truthy (not
    [None], not the empty string, not zero, not [False], not an empty
    container). *)
Theorem from_error_handled_iff (err : ApiException) (e : api_error) :
  from_error json_loads APIError (IsApiException err) = Returned e ->
  handled e = true
  <-> exists raw d C m,
        raw <> "" /\ body err = Some raw /\ json_loads raw = Returned (PyDict d)
        /\ d !! "code" = Some (PyStr C) /\ is_Some (ERROR_CODE_TO_ERROR_CLASS !! C)
        /\ d !! "message" = Some m /\ truthy m = true.
Proof.
  intros He. split.
  - intros Hh.
    destruct (from_error_returned_inv APIError err e He)
      as [[-> _]|(raw & d & Hne & Hb & Hd & [(C & cls' & Hc & Hreg & ->)|[_ ->]])].
    + rewrite handled_init in Hh. discriminate.
    + rewrite handled_init in Hh.
      apply andb_prop in Hh as [Hh _]. apply andb_prop in Hh as [_ Hm].
      destruct (d !! "code") as [c|] eqn:Hdc; simpl in Hc; [subst c|discriminate].
      destruct (d !! "message") as [m|] eqn:Hdm; [|discriminate].
      exists raw, d, C, m. eauto 10.
    + rewrite handled_init, andb_false_r in Hh. discriminate.
  - intros (raw & d & C & m & Hne & Hb & Hd & Hc & [cls' Hreg] & Hm & Ht).
    destruct err as [S b]; simpl in Hb; subst b.
    rewrite (from_error_registered json_loads APIError cls' S raw d C Hne Hd Hc Hreg) in He.
    injection He as <-. rewrite Hm. exact Ht.
Qed.

(** C3 (amended): when the body decodes to a dict whose [code] is a key
    of the registry, classification constructs the class the registry
    maps that code to, with the status, the code and the message ([None]
    when absent) attached, and marks it handled exactly when the message
    is truthy. *)
Theorem from_error_registered_code (S : Z) (raw : string)
    (d : gmap string pyvalue) (C : string) (cls' : error_class) :
  raw <> "" ->
  json_loads raw = Returned (PyDict d) ->
  d !! "code" = Some (PyStr C) ->
  ERROR_CODE_TO_ERROR_CLASS !! C = Some cls' ->
  exists e,
    from_error json_loads APIError (IsApiException {| status := S; body := Some raw |})
    = Returned e
    /\ class_of e = cls' /\ http_code e = S /\ api_code e = PyStr C
    /\ api_message e = default PyNone (d !! "message")
    /\ handled e = truthy (default PyNone (d !! "message")).
Proof.
  intros Hne Hd Hc Hreg. eexists. split.
  - apply (from_error_registered json_loads APIError cls' S raw d C); assumption.
  - repeat split; reflexivity.
Qed.

(** C5: for a code string that is not a key of the registry, classifying
    a body that decodes to a dict holding that code returns the base
    class [APIError], with [handled = False] and [api_code] that code. *)
Theorem from_error_unknown_code (S : Z) (raw : string)
    (d : gmap string pyvalue) (c : string) :
  raw <> "" ->
  json_loads raw = Returned (PyDict d) ->
  d !! "code" = Some (PyStr c) ->
  ERROR_CODE_TO_ERROR_CLASS !! c = None ->
  exists e,
    from_error json_loads APIError (IsApiException {| status := S; body := Some raw |})
    = Returned e
    /\ class_of e = APIError /\ handled e = false /\ api_code e = PyStr c.
Proof.
  intros Hne Hd Hc Hreg. eexists. split.
  - apply (from_error_unregistered json_loads APIError S raw d c); assumption.
  - repeat split; reflexivity.
Qed.


(** C10: [from_error] raises [ValueError("argument must be an
    ApiException")] on every argument that is not an [ApiException], and
    on an [ApiException] it does not raise this error: there [json.loads]
    is the only place a [ValueError] can come from, so it is enough that
    [json.loads] does not raise one with this very message on the body.
    Any [ValueError] raised on an [ApiException] is one that [json.loads]
    raised on its body. *)
Theorem from_error_value_error (cls : error_class) (arg : argument) :
  ((forall err raw,
      arg = IsApiException err -> body err = Some raw ->
      json_loads raw <> Raised (ValueError "argument must be an ApiException")) ->
   (from_error json_loads cls arg = Raised (ValueError "argument must be an ApiException")
    <-> exists obj, arg = NotApiException obj))
  /\ (forall err msg,
        arg = IsApiException err ->
        from_error json_loads cls arg = Raised (ValueError msg) ->
        exists raw, body err = Some raw /\ json_loads raw = Raised (ValueError msg)).
Proof.
  assert (Hown : forall err msg,
            from_error json_loads cls (IsApiException err) = Raised (ValueError msg) ->
            exists raw, body err = Some raw /\ json_loads raw = Raised (ValueError msg)).
  { intros [S b] msg. unfold from_error; simpl.
    destruct b as [raw|]; [|discriminate].
    destruct raw as [|a raw]; [discriminate|].
    destruct (json_loads (String a raw)) as [v|ex] eqn:Hv.
    - destruct v as [| | | | |l|d]; simpl; try discriminate.
      destruct (default PyNone (d !! "code")) as [| | | |C| |]; simpl; try discriminate.
      destruct (bool_decide (is_Some (ERROR_CODE_TO_ERROR_CLASS !! C))); simpl;
        [|discriminate].
      destruct (ERROR_CODE_TO_ERROR_CLASS !! C); discriminate.
    - destruct ex; try discriminate. intros [= <-]. eauto. }
  split.
  - intros Hloads. split.
    + destruct arg as [err|obj]; [|eauto]. intros H.
      destruct (Hown err _ H) as (raw & Hb & Hraw).
      destruct (Hloads err raw eq_refl Hb Hraw).
    + intros [obj ->]. reflexivity.
  - intros err msg ->. apply Hown.
Qed.

End ClassifierClaims.

(** ** The registry, claim by claim *)

Lemma NoDup_snd_inj {A B : Type} (l : list (A * B)) (x1 x2 : A) (y : B) :
  NoDup (l.*2) -> (x1, y) ∈ l -> (x2, y) ∈ l -> x1 = x2.
Proof.
  induction l as [|[a b] l IH]; csimpl; intros Hnd H1 H2.
  - apply elem_of_nil in H1. destruct H1.
  - apply NoDup_cons in Hnd as [Hnotin Hnd].
    rewrite elem_of_cons in H1, H2.
    destruct H1 as [H1|H1], H2 as [H2|H2].
    + congruence.
    + injection H1 as -> ->. destruct Hnotin.
      apply list_elem_of_fmap. exists (x2, b). auto.
    + injection H2 as -> ->. destruct Hnotin.
      apply list_elem_of_fmap. exists (x1, b). auto.
    + auto.
Qed.

Lemma registry_classes_NoDup : NoDup (ERROR_CODE_TO_ERROR_CLASS_items.*2).
Proof. compute_done. Qed.

Lemma registry_codes_items : registry_codes = ERROR_CODE_TO_ERROR_CLASS_items.*1.
Proof. reflexivity. Qed.

Lemma registry_is_Some (c : string) :
  is_Some (ERROR_CODE_TO_ERROR_CLASS !! c) <-> c ∈ registry_codes.
Proof.
  rewrite registry_codes_items, list_elem_of_fmap. split.
  - intros [cls H]. apply registry_lookup in H. exists (c, cls). auto.
  - intros [[c' cls] [-> H]]. exists cls. apply registry_lookup. exact H.
Qed.

(** C8: the keys of the registry are exactly the 23 listed codes; the
    codes map to pairwise distinct subclasses of [APIError]; and the
    lookup the classifier makes succeeds exactly on a [str] equal,
    character for character, to one of them, so that a code that differs
    in case is classified as any unknown code. *)
Theorem registry_exact :
  dom ERROR_CODE_TO_ERROR_CLASS = list_to_set registry_codes
  /\ length registry_codes = 23%nat
  /\ NoDup registry_codes
  /\ size ERROR_CODE_TO_ERROR_CLASS = 23%nat
  /\ (forall c1 c2 cls,
        ERROR_CODE_TO_ERROR_CLASS !! c1 = Some cls ->
        ERROR_CODE_TO_ERROR_CLASS !! c2 = Some cls -> c1 = c2)
  /\ (forall c, ERROR_CODE_TO_ERROR_CLASS !! c <> Some APIError)
  /\ (forall key,
        py_in key ERROR_CODE_TO_ERROR_CLASS = Returned true
        <-> exists c, key = PyStr c /\ c ∈ registry_codes)
  /\ (forall json_loads S raw d c,
        raw <> "" ->
        json_loads raw = Returned (PyDict d) ->
        d !! "code" = Some (PyStr c) ->
        exists e,
          from_error json_loads APIError
            (IsApiException {| status := S; body := Some raw |}) = Returned e
          /\ ((c ∈ registry_codes) ->
              ERROR_CODE_TO_ERROR_CLASS !! c = Some (class_of e))
          /\ ((c ∉ registry_codes) ->
              class_of e = APIError /\ handled e = false))
  /\ ("not_found" ∈ registry_codes)
  /\ ("NOT_FOUND" ∉ registry_codes)
  /\ ("Not_Found" ∉ registry_codes).
Proof.
  split; [|split; [|split; [|split; [|split; [|split; [|split; [|split]]]]]]].
  - apply set_eq. intros c.
    rewrite elem_of_dom, elem_of_list_to_set. apply registry_is_Some.
  - reflexivity.
  - rewrite registry_codes_items. exact registry_items_NoDup.
  - vm_compute. reflexivity.
  - intros c1 c2 cls H1 H2. apply registry_lookup in H1, H2.
    exact (NoDup_snd_inj _ c1 c2 cls registry_classes_NoDup H1 H2).
  - intros c H. apply registry_lookup in H.
    assert (Hin : APIError ∈ ERROR_CODE_TO_ERROR_CLASS_items.*2).
    { apply list_elem_of_fmap. exists (c, APIError). auto. }
    revert Hin. compute_done.
  - intros key. split.
    + destruct key as [| | | |c| |]; simpl; try discriminate.
      intros [= H]. apply bool_decide_eq_true_1 in H.
      exists c. split; [reflexivity|]. apply registry_is_Some. exact H.
    + intros (c & -> & H). simpl.
      rewrite bool_decide_eq_true_2 by (apply registry_is_Some; exact H).
      reflexivity.
  - intros json_loads S raw d c Hne Hd Hc.
    destruct (ERROR_CODE_TO_ERROR_CLASS !! c) as [cls'|] eqn:Hreg.
    + eexists. split;
        [exact (from_error_registered json_loads APIError cls' S raw d c Hne Hd Hc Hreg)|].
      simpl. split; [reflexivity|].
      intros Hnot. destruct Hnot. apply registry_is_Some. eauto.
    + eexists. split;
        [exact (from_error_unregistered json_loads APIError S raw d c Hne Hd Hc Hreg)|].
      simpl. split; [|auto].
      intros Hin. apply registry_is_Some in Hin as [? Hin]. congruence.
  - compute_done.
Qed.

(** ** The rendering [__str__] *)

Lemma append_String (a : ascii) (s t : string) :
  (String a s ++ t)%string = String a (s ++ t)%string.
Proof. reflexivity. Qed.

Lemma prefix_head_ne (a b : ascii) (p s : string) :
  a <> b -> String.prefix (String a p) (String b s) = false.
Proof. intros H. simpl. destruct (ascii_dec a b); [contradiction|reflexivity]. Qed.

Lemma str_contains_cons (p : string) (b : ascii) (s : string) :
  str_contains p (String b s)
  = if String.prefix p (String b s) then true else str_contains p s.
Proof. reflexivity. Qed.

Lemma str_contains_cons_ne (a b : ascii) (p s : string) :
  a <> b -> str_contains (String a p) (String b s) = str_contains (String a p) s.
Proof.
  intros H. rewrite str_contains_cons, prefix_head_ne by exact H. reflexivity.
Qed.

Lemma str_contains_app_r (p s t : string) :
  str_contains p t = true -> str_contains p (s ++ t) = true.
Proof.
  intros H. induction s as [|a s IH]; [exact H|].
  rewrite append_String, str_contains_cons, IH.
  destruct (String.prefix p (String a (s ++ t))); reflexivity.
Qed.

(** A run of characters that are not the first of [p] cannot start an
    occurrence of [p]. *)
Lemma str_contains_skip (a : ascii) (p s t : string) :
  a ∉ chars s ->
  str_contains (String a p) (s ++ t) = str_contains (String a p) t.
Proof.
  induction s as [|b s IH]; intros Hs; [reflexivity|].
  rewrite append_String. simpl chars in Hs. apply not_elem_of_cons in Hs as [Hab Hs].
  rewrite str_contains_cons_ne by exact Hab. apply IH. exact Hs.
Qed.

(** A prefix test does not see past a character foreign to the pattern. *)
Lemma prefix_app_sep (x : ascii) (p s t : string) :
  x ∉ chars p ->
  String.prefix p (s ++ String x t) = String.prefix p s.
Proof.
  revert s. induction p as [|a p IH]; intros s Hx; [destruct s; reflexivity|].
  simpl chars in Hx. apply not_elem_of_cons in Hx as [Hxa Hx].
  destruct s as [|b s].
  - apply prefix_head_ne. congruence.
  - rewrite append_String. simpl.
    destruct (ascii_dec a b); [apply IH; exact Hx|reflexivity].
Qed.

(** An occurrence of [p] cannot straddle a character foreign to [p]. *)
Lemma str_contains_app_sep (x a : ascii) (p s t : string) :
  x ∉ chars (String a p) ->
  str_contains (String a p) (s ++ String x t)
  = str_contains (String a p) s || str_contains (String a p) t.
Proof.
  intros Hx. induction s as [|b s IH].
  - simpl chars in Hx. apply not_elem_of_cons in Hx as [Hxa _].
    change ("" ++ String x t)%string with (String x t).
    rewrite str_contains_cons_ne by congruence. reflexivity.
  - rewrite append_String, !str_contains_cons.
    rewrite <- append_String, prefix_app_sep by exact Hx.
    rewrite IH. destruct (String.prefix (String a p) (String b s)); reflexivity.
Qed.

(** The decimal rendering of an [int] holds digits and a minus sign only. *)
Lemma chars_string_of_uint (d : Decimal.uint) (c : ascii) :
  c ∈ chars (NilEmpty.string_of_uint d) -> c ∈ chars "0123456789".
Proof.
  induction d; simpl; intros H;
    [apply elem_of_nil in H; destruct H|..];
    (apply elem_of_cons in H as [->|H]; [repeat constructor|auto]).
Qed.

Lemma chars_str_of_int (n : Z) (c : ascii) :
  c ∈ chars (str_of_int n) -> c ∈ chars "-0123456789".
Proof.
  assert (Hu : forall d, c ∈ chars (NilZero.string_of_uint d) ->
                         c ∈ chars "-0123456789").
  { intros d H. apply list_elem_of_further.
    destruct d; try exact (chars_string_of_uint _ c H).
    simpl in H. apply elem_of_cons in H as [->|H]; [repeat constructor|].
    apply elem_of_nil in H. destruct H. }
  unfold str_of_int, NilZero.string_of_int.
  destruct (Z.to_int n) as [d|d]; [apply Hu|].
  change (c ∈ "-"%char :: chars (NilZero.string_of_uint d) -> c ∈ chars "-0123456789").
  intros H. apply elem_of_cons in H as [->|H]; [repeat constructor|exact (Hu d H)].
Qed.

Lemma str_of_int_no_u (n : Z) : "u"%char ∉ chars (str_of_int n).
Proof.
  intros H. apply chars_str_of_int in H.
  revert H. apply (bool_decide_unpack _). vm_compute. exact I.
Qed.

(** Closes a decidable closed goal by evaluation. *)
Ltac by_evaluation := apply (bool_decide_unpack _); vm_compute; exact I.

Section RenderingClaims.

Variable py_repr : pyvalue -> string.

Lemma marker_in_handled_rendering (n : Z) (code message : string) :
  str_contains unhandled_marker
    ("APIError(http_code=" ++ str_of_int n
       ++ ", api_code=" ++ code ++ ", api_message=" ++ message ++ ")")
  = str_contains unhandled_marker code || str_contains unhandled_marker message.
Proof.
  unfold unhandled_marker.
  rewrite (str_contains_skip "u" _ "APIError(http_code=") by by_evaluation.
  rewrite (str_contains_skip "u" _ (str_of_int _)) by apply str_of_int_no_u.
  rewrite (str_contains_skip "u" _ ", api_code=") by by_evaluation.
  rewrite (append_String "," " api_message=").
  rewrite (str_contains_app_sep ",") by by_evaluation.
  rewrite (str_contains_skip "u" _ " api_message=") by by_evaluation.
  rewrite (str_contains_app_sep ")") by by_evaluation.
  change (str_contains "unhandled=True" "") with false.
  rewrite orb_false_r. reflexivity.
Qed.

(** C7 (amended): a handled error renders as
    [APIError(http_code=<n>, api_code=<code>, api_message=<message>)],
    with nothing appended, so that the marker [unhandled=True] occurs in
    it exactly when it occurs in the rendered code or message; an error
    that is not handled renders as the same text with [, unhandled=True]
    before the closing parenthesis, and so always contains the marker. *)
Theorem str_rendering (self : api_error) :
  (handled self = true ->
   __str__ py_repr self
   = "APIError(http_code=" ++ str_of_int (http_code self)
       ++ ", api_code=" ++ py_str py_repr (api_code self)
       ++ ", api_message=" ++ py_str py_repr (api_message self) ++ ")"
   /\ str_contains unhandled_marker (__str__ py_repr self)
      = str_contains unhandled_marker (py_str py_repr (api_code self))
        || str_contains unhandled_marker (py_str py_repr (api_message self)))
  /\ (handled self = false ->
      __str__ py_repr self
      = "APIError(http_code=" ++ str_of_int (http_code self)
          ++ ", api_code=" ++ py_str py_repr (api_code self)
          ++ ", api_message=" ++ py_str py_repr (api_message self)
          ++ ", unhandled=True)"
      /\ str_contains unhandled_marker (__str__ py_repr self) = true).
Proof.
  split; intros Hh; unfold __str__; rewrite Hh; (split; [reflexivity|]).
  - apply marker_in_handled_rendering.
  - do 6 apply str_contains_app_r. reflexivity.
Qed.

End RenderingClaims.

(** ** The model [WebhookEventFilter] *)

Module webhook_event_filter_facts.

Import webhook_event_filter.

Lemma model_dump_no_exclude (x : WebhookEventFilter) :
  model_dump x ∅
  = dump_field "contract_address" (contract_address x)
      (dump_field "from_address" (from_address x)
         (dump_field "to_address" (to_address x) ∅)).
Proof.
  unfold model_dump. apply map_filter_id. intros i v _. simpl. set_solver.
Qed.

(** [to_dict] holds exactly the fields that are not [None], each as a
    [str]. *)
Lemma to_dict_lookup (x : WebhookEventFilter) (name : string) :
  to_dict x !! name = PyStr <$> field x name.
Proof.
  unfold to_dict. rewrite model_dump_no_exclude. unfold field, dump_field.
  destruct x as [[c|] [f|] [t|] fs]; simpl;
    repeat case_decide; subst; simplify_map_eq; reflexivity.
Qed.

Lemma validate_field_str (v : option string) :
  validate_field (default PyNone (PyStr <$> v)) = Returned v.
Proof. destruct v; reflexivity. Qed.

Lemma init_field (data : gmap string pyvalue) (x : WebhookEventFilter) (name : string) :
  __init__ data = Returned x ->
  data !! name = None ->
  field x name = None.
Proof.
  unfold __init__, model_validate, field_of, field. intros H Hname.
  destruct (data !! "contract_address") as [vc|] eqn:Hc;
    destruct (data !! "from_address") as [vf|] eqn:Hf;
    destruct (data !! "to_address") as [vt|] eqn:Ht;
    repeat match type of H with
           | context [validate_field ?v] =>
               destruct (validate_field v); simpl in H; try discriminate
           end;
    simpl in H; injection H as <-; simpl;
    repeat case_decide; subst; congruence.
Qed.

(** C9: deserializing the serialization of an instance gives an instance
    equal to it, and a field left unset at construction is absent from
    the serialization; no key of the serialization holds [None] (the
    schema marks no field of this model nullable). *)
Theorem from_dict_to_dict (x : WebhookEventFilter) :
  (exists y, from_dict (PyDict (to_dict x)) = Returned (Some y) /\ model_eq y x)
  /\ (forall data name,
        __init__ data = Returned x ->
        name ∈ __properties ->
        data !! name = None ->
        to_dict x !! name = None)
  /\ (forall name, to_dict x !! name <> Some PyNone).
Proof.
  split; [|split].
  - exists {| contract_address := contract_address x;
              from_address := from_address x;
              to_address := to_address x;
              model_fields_set := list_to_set __properties |}.
    split; [|repeat split].
    unfold from_dict, model_validate, field_of, dict_get.
    simplify_map_eq. rewrite !to_dict_lookup. unfold field; simpl.
    rewrite !validate_field_str. simpl. do 2 f_equal.
  - intros data name Hinit _ Hname.
    rewrite to_dict_lookup, (init_field data x name Hinit Hname). reflexivity.
  - intros name. rewrite to_dict_lookup. destruct (field x name); discriminate.
Qed.

End webhook_event_filter_facts.

(** ** The classifier on concrete failures

    The statements above hold for any decoder; here the classifier runs
    with the reference decoder [json.loads] on concrete bodies. *)

(** C4: a body that is valid JSON but not an object makes [from_error]
    raise: [AttributeError] on an array or on [null], which have no
    [get]; and an object whose code is an array raises [TypeError] at the
    registry lookup. *)
Theorem from_error_raises_on_non_object :
  from_error json.loads APIError (failure 500 "[]")
  = Raised (AttributeError "'list' object has no attribute 'get'")
  /\ from_error json.loads APIError (failure 500 "null")
     = Raised (AttributeError "'NoneType' object has no attribute 'get'")
  /\ from_error json.loads APIError (failure 500 "{'code': ['not_found']}")
     = Raised (TypeError "unhashable type: 'list'").
Proof. repeat split; vm_compute; reflexivity. Qed.

(** The first scenario of the specification: status 404 with code
    [not_found] and message [wallet not found] gives a handled
    [NotFoundError]. *)
Lemma from_error_known_code_message_witness :
  exists e,
    from_error json.loads APIError
      (IsApiException
         {| status := 404;
            body := Some (quoted "{'code':'not_found','message':'wallet not found'}") |})
    = Returned e
    /\ class_of e = NotFoundError /\ handled e = true
    /\ api_code e = PyStr "not_found"
    /\ api_message e = PyStr "wallet not found"
    /\ http_code e = 404.
Proof.
  apply (from_error_known_code_message json.loads 404
           (quoted "{'code':'not_found','message':'wallet not found'}")
           {[ "code" := PyStr "not_found";
              "message" := PyStr "wallet not found" ]}
           "not_found" "wallet not found" NotFoundError).
  - discriminate.
  - vm_compute. reflexivity.
  - reflexivity.
  - reflexivity.
  - vm_compute. reflexivity.
  - discriminate.
Defined.

(** C1 as stated fails for the empty message: the registered class is
    built, with the code and the message attached, but it is not handled. *)
Lemma from_error_empty_message_not_handled :
  from_error json.loads APIError (failure 404 "{'code':'not_found','message':''}")
  = Returned {| class_of := NotFoundError;
                _http_code := 404;
                _api_code := PyStr "not_found";
                _api_message := PyStr "";
                _handled := false |}.
Proof. vm_compute. reflexivity. Qed.

Lemma from_error_handled_iff_witness :
  handled {| class_of := UnauthorizedError;
             _http_code := 401;
             _api_code := PyStr "unauthorized";
             _api_message := PyStr "bad key";
             _handled := true |} = true
  <-> exists raw d C m,
        raw <> ""
        /\ body {| status := 401;
                   body := Some (quoted "{'code':'unauthorized','message':'bad key'}") |}
           = Some raw
        /\ json.loads raw = Returned (PyDict d)
        /\ d !! "code" = Some (PyStr C) /\ is_Some (ERROR_CODE_TO_ERROR_CLASS !! C)
        /\ d !! "message" = Some m /\ truthy m = true.
Proof.
  apply (from_error_handled_iff json.loads
           {| status := 401;
              body := Some (quoted "{'code':'unauthorized','message':'bad key'}") |}).
  vm_compute. reflexivity.
Defined.

(** C2 as stated fails: here the body holds a code of the registry and a
    message, and the error is not handled, the message being empty. *)
Lemma from_error_code_and_message_not_handled :
  exists d e,
    json.loads (quoted "{'code':'unauthorized','message':''}") = Returned (PyDict d)
    /\ d !! "code" = Some (PyStr "unauthorized")
    /\ ERROR_CODE_TO_ERROR_CLASS !! "unauthorized" = Some UnauthorizedError
    /\ d !! "message" = Some (PyStr "")
    /\ from_error json.loads APIError
         (failure 401 "{'code':'unauthorized','message':''}") = Returned e
    /\ handled e = false.
Proof.
  exists {[ "code" := PyStr "unauthorized"; "message" := PyStr "" ]}.
  eexists. repeat split; vm_compute; reflexivity.
Qed.

Lemma from_error_registered_code_witness :
  exists e,
    from_error json.loads APIError
      (IsApiException
         {| status := 429;
            body := Some (quoted "{'code':'resource_exhausted','message':'slow down'}") |})
    = Returned e
    /\ class_of e = ResourceExhaustedError /\ http_code e = 429
    /\ api_code e = PyStr "resource_exhausted"
    /\ api_message e = PyStr "slow down"
    /\ handled e = true.
Proof.
  refine (from_error_registered_code json.loads 429
            (quoted "{'code':'resource_exhausted','message':'slow down'}")
            {[ "code" := PyStr "resource_exhausted";
               "message" := PyStr "slow down" ]}
            "resource_exhausted" ResourceExhaustedError _ _ _ _).
  - discriminate.
  - vm_compute. reflexivity.
  - reflexivity.
  - vm_compute. reflexivity.
Defined.

(** C3 as stated fails when the message is absent: the registered class
    is built, and it is not handled. *)
Lemma from_error_code_without_message :
  from_error json.loads APIError (failure 404 "{'code':'not_found'}")
  = Returned {| class_of := NotFoundError;
                _http_code := 404;
                _api_code := PyStr "not_found";
                _api_message := PyNone;
                _handled := false |}.
Proof. vm_compute. reflexivity. Qed.

Lemma from_error_unknown_code_witness :
  exists e,
    from_error json.loads APIError
      (IsApiException
         {| status := 400;
            body := Some (quoted "{'code':'totally_unknown_code','message':'m'}") |})
    = Returned e
    /\ class_of e = APIError /\ handled e = false
    /\ api_code e = PyStr "totally_unknown_code".
Proof.
  apply (from_error_unknown_code json.loads 400
           (quoted "{'code':'totally_unknown_code','message':'m'}")
           {[ "code" := PyStr "totally_unknown_code"; "message" := PyStr "m" ]}
           "totally_unknown_code").
  - discriminate.
  - vm_compute. reflexivity.
  - reflexivity.
  - vm_compute. reflexivity.
Defined.


(** A body of 4301 digits: [json.loads] raises a [ValueError] of its
    own, which is not the one of the argument check. *)
Lemma from_error_value_error_witness :
  from_error json.loads APIError
    (IsApiException {| status := 500; body := Some (repeated 4301 "1") |})
  = Raised (ValueError "argument must be an ApiException")
  <-> exists obj,
        IsApiException {| status := 500; body := Some (repeated 4301 "1") |}
        = NotApiException obj.
Proof.
  apply (proj1 (from_error_value_error json.loads APIError
                  (IsApiException {| status := 500;
                                     body := Some (repeated 4301 "1") |}))).
  intros err raw [= <-] [= <-]. vm_compute. discriminate.
Defined.

(** What [json.loads] raises besides [json.JSONDecodeError] escapes from
    [from_error]: the [ValueError] of an integer literal of 4301 digits,
    and the [RecursionError] of 2000 nested arrays. *)
Example from_error_lets_decoder_errors_escape :
  from_error json.loads APIError
    (IsApiException {| status := 500; body := Some (repeated 4301 "1") |})
  = Raised (ValueError
      "Exceeds the limit (4300 digits) for integer string conversion: value has 4301 digits; use sys.set_int_max_str_digits() to increase the limit")
  /\ from_error json.loads APIError
       (IsApiException {| status := 500; body := Some (repeated 2000 "[") |})
     = Raised (RecursionError
         "maximum recursion depth exceeded while decoding a JSON array from a unicode string").
Proof. split; vm_compute; reflexivity. Qed.

(** C7 as stated fails: a handled error whose message is the text of the
    marker renders with the marker in it. *)
Lemma handled_rendering_with_marker :
  exists e,
    from_error json.loads APIError
      (failure 404 "{'code':'not_found','message':'unhandled=True'}") = Returned e
    /\ handled e = true
    /\ forall py_repr, str_contains unhandled_marker (__str__ py_repr e) = true.
Proof.
  eexists. split; [vm_compute; reflexivity|].
  split; [reflexivity|]. intros py_repr. vm_compute. reflexivity.
Qed.

(** An instance built from one keyword argument, its serialization, and
    the instance read back from it. *)
Example webhook_event_filter_roundtrip :
  exists x y,
    webhook_event_filter.__init__ {[ "from_address" := PyStr "0xabc" ]} = Returned x
    /\ webhook_event_filter.to_dict x = {[ "from_address" := PyStr "0xabc" ]}
    /\ webhook_event_filter.from_dict (PyDict (webhook_event_filter.to_dict x))
       = Returned (Some y)
    /\ webhook_event_filter.model_eq y x
    /\ webhook_event_filter.model_fields_set x = {[ "from_address" ]}
    /\ webhook_event_filter.model_fields_set y
       = {[ "contract_address"; "from_address"; "to_address" ]}.
Proof.
  do 2 eexists. repeat split; vm_compute; reflexivity.
Qed.

(** * Further properties of the classifier *)

Section ClassifierOutcomes.

Variable json_loads : string -> result pyvalue.

(** X1: When [from_error] raises on an [ApiException], and what: only on
    a non-empty body, and then either the exception [json.loads] raised,
    when that is not [json.JSONDecodeError]; or [AttributeError] when
    the decoded value is not a dict; or [TypeError] when the code of the
    dict is a list or a dict. *)
Theorem from_error_raises_iff (cls : error_class) (err : ApiException) (ex : exception) :
  from_error json_loads cls (IsApiException err) = Raised ex
  <-> exists raw,
        raw <> "" /\ body err = Some raw
        /\ ((json_loads raw = Raised ex /\ ex <> JSONDecodeError)
            \/ exists v,
                 json_loads raw = Returned v
                 /\ (((forall d, v <> PyDict d)
                      /\ ex = AttributeError
                                ("'" ++ type_name v ++ "' object has no attribute 'get'"))
                     \/ exists d,
                          v = PyDict d
                          /\ hashable (default PyNone (d !! "code")) = false
                          /\ ex = TypeError
                                    ("unhashable type: '"
                                       ++ type_name (default PyNone (d !! "code"))
                                       ++ "'"))).
Proof.
  destruct err as [S b]. unfold from_error; simpl. split.
  - destruct b as [raw|]; [|discriminate].
    destruct raw as [|a raw]; [discriminate|].
    intros H. exists (String a raw).
    split; [discriminate|]. split; [reflexivity|].
    destruct (json_loads (String a raw)) as [v|ex'] eqn:Hv.
    + right. exists v. split; [reflexivity|].
      destruct v as [| | | | |l|d]; simpl in H;
        try (injection H as <-; left; split; [intros ? [=]|reflexivity]).
      right. exists d. split; [reflexivity|].
      destruct (default PyNone (d !! "code")) as [| | | |C| |]; simpl in H;
        try discriminate; try (injection H as <-; split; reflexivity).
      destruct (ERROR_CODE_TO_ERROR_CLASS !! C) as [cls'|] eqn:Hreg.
      * rewrite bool_decide_eq_true_2 in H by eauto. discriminate.
      * rewrite bool_decide_eq_false_2 in H by (intros [? ?]; discriminate).
        discriminate.
    + left. destruct ex'; try discriminate;
        injection H as <-; (split; [reflexivity|discriminate]).
  - intros (raw & Hne & [= ->] & H).
    destruct raw as [|a raw]; [congruence|].
    destruct H as [[Hv Hex]|(v & Hv & H)]; rewrite Hv.
    + destruct ex; try reflexivity. destruct Hex. reflexivity.
    + destruct H as [[Hnd ->]|(d & -> & Hh & ->)].
      * destruct v; try reflexivity. destruct (Hnd _ eq_refl).
      * simpl. destruct (default PyNone (d !! "code")); try discriminate; reflexivity.
Qed.

(** X2: What every error returned by [from_error] satisfies: it keeps the
    status; its code is hashable; and either it is an unhandled instance
    of the class [from_error] was called on, or an instance of the class
    the registry maps its code to, handled exactly when its message is
    truthy. *)
Theorem from_error_returned_invariant (cls : error_class) (err : ApiException)
    (e : api_error) :
  from_error json_loads cls (IsApiException err) = Returned e ->
  http_code e = status err
  /\ hashable (api_code e) = true
  /\ ((class_of e = cls /\ handled e = false)
      \/ exists C,
           api_code e = PyStr C
           /\ ERROR_CODE_TO_ERROR_CLASS !! C = Some (class_of e)
           /\ handled e = truthy (api_message e)).
Proof.
  destruct err as [S b]. unfold from_error; simpl.
  destruct b as [raw|]; [|intros [= <-]; auto].
  destruct raw as [|a raw]; [intros [= <-]; auto|].
  destruct (json_loads (String a raw)) as [v|ex];
    [|destruct ex; try discriminate; intros [= <-]; auto].
  destruct v as [| | | | |l|d]; simpl; try discriminate.
  destruct (default PyNone (d !! "code")) as [| | | |C| |] eqn:Hcode; simpl;
    try discriminate;
    try (intros [= <-]; repeat split; left; split; [reflexivity|];
         rewrite handled_init, andb_false_r; reflexivity).
  destruct (ERROR_CODE_TO_ERROR_CLASS !! C) as [cls'|] eqn:Hreg.
  - rewrite bool_decide_eq_true_2 by eauto. simpl. intros [= <-].
    repeat split. right. exists C. split; [reflexivity|]. split; [exact Hreg|].
    rewrite handled_init, (registry_code_truthy C cls' Hreg), andb_true_r.
    reflexivity.
  - rewrite bool_decide_eq_false_2 by (intros [? ?]; discriminate).
    simpl. intros [= <-]. repeat split. left. split; [reflexivity|].
    rewrite handled_init, andb_false_r. reflexivity.
Qed.

(** X3: A code that is not a string of the registry (a missing or null code,
    a number, a boolean, an unregistered string) gives an unhandled
    instance of the class [from_error] was called on, which carries the
    code and the message as decoded. *)
Theorem from_error_fallback (cls : error_class) (S : Z) (raw : string)
    (d : gmap string pyvalue) :
  raw <> "" ->
  json_loads raw = Returned (PyDict d) ->
  hashable (default PyNone (d !! "code")) = true ->
  (forall C, d !! "code" = Some (PyStr C) -> ERROR_CODE_TO_ERROR_CLASS !! C = None) ->
  from_error json_loads cls (IsApiException {| status := S; body := Some raw |})
  = Returned {| class_of := cls;
                _http_code := S;
                _api_code := default PyNone (d !! "code");
                _api_message := default PyNone (d !! "message");
                _handled := false |}.
Proof.
  intros Hne Hd Hh Hreg.
  rewrite (from_error_dict json_loads cls S raw d Hne Hd). cbv zeta.
  assert (Hin : py_in (default PyNone (d !! "code")) ERROR_CODE_TO_ERROR_CLASS
                = Returned false).
  { destruct (d !! "code") as [c|] eqn:Hc; [|reflexivity].
    destruct c as [| | | |C| |]; try reflexivity; try discriminate.
    simpl. rewrite (Hreg C eq_refl).
    rewrite bool_decide_eq_false_2 by (intros [? ?]; discriminate). reflexivity. }
  rewrite Hin. simpl. unfold __init__. do 2 f_equal.
  change (handled (__init__ cls {| status := S; body := Some raw |}
                     (default PyNone (d !! "code"))
                     (default PyNone (d !! "message")) true) = false).
  rewrite handled_init, andb_false_r. reflexivity.
Qed.

End ClassifierOutcomes.

(** * Further properties of the rendering *)

Lemma chars_append (s t : string) : chars (s ++ t) = (chars s ++ chars t)%list.
Proof.
  induction s as [|a s IH]; [reflexivity|].
  rewrite append_String. simpl. rewrite IH. reflexivity.
Qed.

Lemma append_cancel_l (p s t : string) : (p ++ s = p ++ t)%string -> s = t.
Proof.
  induction p as [|a p IH]; [auto|]. rewrite !append_String. intros [= H]. auto.
Qed.

Lemma length_append (s t : string) :
  String.length (s ++ t) = (String.length s + String.length t)%nat.
Proof.
  induction s as [|a s IH]; [reflexivity|].
  rewrite append_String. simpl. rewrite IH. reflexivity.
Qed.

Lemma append_cancel_r (s1 s2 t : string) : (s1 ++ t = s2 ++ t)%string -> s1 = s2.
Proof.
  revert s2. induction s1 as [|a s1 IH]; intros [|b s2] H.
  - reflexivity.
  - apply (f_equal String.length) in H.
    rewrite append_String in H. simpl in H. rewrite !length_append in H.
    simpl in H. lia.
  - apply (f_equal String.length) in H.
    rewrite append_String in H. simpl in H. rewrite !length_append in H.
    simpl in H. lia.
  - rewrite !append_String in H. injection H as -> H. rewrite (IH s2 H). reflexivity.
Qed.

(** Two texts that are cut at their first separator agree before and
    after it. *)
Lemma append_sep_inj (x : ascii) (s1 s2 t1 t2 : string) :
  x ∉ chars s1 -> x ∉ chars s2 ->
  (s1 ++ String x t1 = s2 ++ String x t2)%string -> s1 = s2 /\ t1 = t2.
Proof.
  revert s2. induction s1 as [|a s1 IH]; intros [|b s2] H1 H2 H.
  - injection H as ->. auto.
  - rewrite append_String in H. injection H as <- _.
    destruct H2. simpl. apply list_elem_of_here.
  - rewrite append_String in H. injection H as -> _.
    destruct H1. simpl. apply list_elem_of_here.
  - rewrite !append_String in H. injection H as -> H.
    simpl chars in H1, H2.
    apply not_elem_of_cons in H1 as [_ H1]. apply not_elem_of_cons in H2 as [_ H2].
    destruct (IH s2 H1 H2 H) as [-> ->]. auto.
Qed.

Lemma str_of_int_inj (n m : Z) : str_of_int n = str_of_int m -> n = m.
Proof.
  assert (Hisi : forall k,
            NilZero.int_of_string (str_of_int k) = Some (Z.to_int k)).
  { intros k. unfold str_of_int. apply NilZero.isi; destruct k; simpl;
      try discriminate; intros [= H]; exact (DecimalPos.Unsigned.to_uint_nonnil _ H). }
  intros H. apply DecimalZ.to_int_inj.
  pose proof (Hisi n) as Hn. rewrite H, Hisi in Hn. congruence.
Qed.

Lemma str_of_int_no_comma (n : Z) : ","%char ∉ chars (str_of_int n).
Proof.
  intros H. apply chars_str_of_int in H.
  revert H. by_evaluation.
Qed.

Section RenderingUnambiguous.

Variable py_repr : pyvalue -> string.

(** X5: As long as no rendered code or message holds a comma, the rendering
    tells the errors apart: two errors with the same rendering agree on
    the handled flag, the status, and the rendered code and message. The
    class is not rendered. *)
Theorem str_unambiguous (e1 e2 : api_error) :
  ","%char ∉ chars (py_str py_repr (api_code e1)) ->
  ","%char ∉ chars (py_str py_repr (api_message e1)) ->
  ","%char ∉ chars (py_str py_repr (api_code e2)) ->
  ","%char ∉ chars (py_str py_repr (api_message e2)) ->
  __str__ py_repr e1 = __str__ py_repr e2 ->
  handled e1 = handled e2
  /\ http_code e1 = http_code e2
  /\ py_str py_repr (api_code e1) = py_str py_repr (api_code e2)
  /\ py_str py_repr (api_message e1) = py_str py_repr (api_message e2).
Proof.
  intros Hc1 Hm1 Hc2 Hm2 H.
  assert (Hfields :
    forall t1 t2,
      ("APIError(http_code=" ++ str_of_int (http_code e1)
         ++ ", api_code=" ++ py_str py_repr (api_code e1)
         ++ ", api_message=" ++ py_str py_repr (api_message e1) ++ t1
       = "APIError(http_code=" ++ str_of_int (http_code e2)
           ++ ", api_code=" ++ py_str py_repr (api_code e2)
           ++ ", api_message=" ++ py_str py_repr (api_message e2) ++ t2)%string ->
      http_code e1 = http_code e2
      /\ py_str py_repr (api_code e1) = py_str py_repr (api_code e2)
      /\ (py_str py_repr (api_message e1) ++ t1
          = py_str py_repr (api_message e2) ++ t2)%string).
  { intros t1 t2 E. apply append_cancel_l in E.
    rewrite !(append_String "," " api_code=") in E.
    apply append_sep_inj in E as [En E]; try apply str_of_int_no_comma.
    apply append_cancel_l in E.
    rewrite !(append_String "," " api_message=") in E.
    apply append_sep_inj in E as [Ec E]; try assumption.
    apply append_cancel_l in E.
    split; [exact (str_of_int_inj _ _ En)|]. split; assumption. }
  assert (Hmixed :
    forall m m' : string,
      ","%char ∉ chars m ->
      (m ++ ")")%string <> (m' ++ ", unhandled=True)")%string).
  { intros m m' Hm E. apply (f_equal chars) in E. rewrite !chars_append in E.
    assert (Hin : ","%char ∈ (chars m ++ chars ")")%list).
    { rewrite E. apply elem_of_app. right. apply list_elem_of_here. }
    apply elem_of_app in Hin as [Hin|Hin]; [exact (Hm Hin)|].
    revert Hin. by_evaluation. }
  unfold __str__ in H.
  destruct (handled e1), (handled e2);
    apply Hfields in H as (Hn & Hc & Hm).
  - apply append_cancel_r in Hm. auto.
  - destruct (Hmixed _ _ Hm1 Hm).
  - symmetry in Hm. destruct (Hmixed _ _ Hm2 Hm).
  - apply append_cancel_r in Hm. auto.
Qed.

End RenderingUnambiguous.

(** * Further properties of [WebhookEventFilter] *)

Module webhook_event_filter_more.

Import webhook_event_filter webhook_event_filter_facts.

Lemma validate_field_returned (v : pyvalue) (o : option string) :
  validate_field v = Returned o <-> v = default PyNone (PyStr <$> o).
Proof.
  split.
  - destruct v; simpl; intros [= <-]; reflexivity.
  - intros ->. apply validate_field_str.
Qed.

Lemma validate_field_raised (v : pyvalue) :
  (exists ex, validate_field v = Raised ex)
  <-> v <> PyNone /\ forall s, v <> PyStr s.
Proof.
  split.
  - intros [ex H]. destruct v; try discriminate; split; intros; discriminate.
  - intros [Hn Hs]. destruct v; simpl; eauto; [destruct Hn|destruct (Hs s)]; reflexivity.
Qed.

(** [from_dict] on a dict: the three properties are read with [get],
    validated in order, and all three count as set. *)
Lemma from_dict_dict (d : gmap string pyvalue) :
  from_dict (PyDict d)
  = c ← validate_field (dict_get d "contract_address");
    f ← validate_field (dict_get d "from_address");
    t ← validate_field (dict_get d "to_address");
    Returned (Some {| contract_address := c;
                      from_address := f;
                      to_address := t;
                      model_fields_set := list_to_set __properties |}).
Proof.
  unfold from_dict, model_validate, field_of. simplify_map_eq.
  destruct (validate_field (dict_get d "contract_address")); [|reflexivity].
  destruct (validate_field (dict_get d "from_address")); [|reflexivity].
  destruct (validate_field (dict_get d "to_address")); [|reflexivity].
  simpl. do 2 f_equal.
Qed.

Lemma from_dict_returned (d : gmap string pyvalue) (y : WebhookEventFilter) :
  from_dict (PyDict d) = Returned (Some y)
  <-> (forall name, name ∈ __properties ->
         dict_get d name = default PyNone (PyStr <$> field y name))
      /\ model_fields_set y = list_to_set __properties.
Proof.
  rewrite from_dict_dict. split.
  - destruct (validate_field (dict_get d "contract_address")) as [c|] eqn:Hc;
      [|discriminate].
    destruct (validate_field (dict_get d "from_address")) as [f|] eqn:Hf;
      [|discriminate].
    destruct (validate_field (dict_get d "to_address")) as [t|] eqn:Ht;
      [|discriminate].
    simpl. intros [= <-]. split; [|reflexivity].
    apply validate_field_returned in Hc, Hf, Ht.
    intros name Hname. unfold __properties in Hname.
    repeat (apply elem_of_cons in Hname as [->|Hname]; [assumption|]).
    apply elem_of_nil in Hname. destruct Hname.
  - intros [Hf Hs].
    pose proof (Hf "contract_address" ltac:(repeat constructor)) as Hc.
    pose proof (Hf "from_address" ltac:(repeat constructor)) as Hfr.
    pose proof (Hf "to_address" ltac:(repeat constructor)) as Ht.
    unfold field in Hc, Hfr, Ht; simpl in Hc, Hfr, Ht.
    rewrite Hc, Hfr, Ht, !validate_field_str. simpl.
    destruct y as [c f t fs]; simpl in *. subst fs. reflexivity.
Qed.

(** X7: [from_dict] raises exactly on a value that is neither [None] nor
    a dict, and on a dict in which one of the three properties holds a
    value that is neither [None] nor a [str]. On an instance of the model
    it does not raise: the instance is returned. *)
Theorem from_dict_raises_iff (obj : object) :
  ((exists ex, from_dict obj = Raised ex)
   <-> (exists v, obj = Value v /\ v <> PyNone /\ forall d, v <> PyDict d)
       \/ exists d name v,
            obj = Value (PyDict d) /\ name ∈ __properties /\ d !! name = Some v
            /\ v <> PyNone /\ forall s, v <> PyStr s)
  /\ (forall self, obj = Instance self -> from_dict obj = Returned (Some self)).
Proof.
  assert (Hget : forall (d : gmap string pyvalue) name,
            dict_get d name <> PyNone -> d !! name = Some (dict_get d name)).
  { intros d name. unfold dict_get. destruct (d !! name); simpl; congruence. }
  split; [|intros self ->; reflexivity].
  split.
  - intros [ex H].
    destruct obj as [v|self]; [|discriminate].
    destruct v as [| | | | |l|d];
      [discriminate
      |try solve [left; eexists; split; [reflexivity|];
                  split; [discriminate|intros ? [=]]]..].
    right. rewrite from_dict_dict in H.
    destruct (validate_field (dict_get d "contract_address")) as [c|ec] eqn:Hc.
    + destruct (validate_field (dict_get d "from_address")) as [f|ef] eqn:Hf.
      * destruct (validate_field (dict_get d "to_address")) as [t|et] eqn:Ht;
          [discriminate|].
        destruct (proj1 (validate_field_raised _) (ex_intro _ et Ht)) as [Hn Hs].
        exists d, "to_address", (dict_get d "to_address").
        split; [reflexivity|]. split; [repeat constructor|]. auto.
      * destruct (proj1 (validate_field_raised _) (ex_intro _ ef Hf)) as [Hn Hs].
        exists d, "from_address", (dict_get d "from_address").
        split; [reflexivity|]. split; [repeat constructor|]. auto.
    + destruct (proj1 (validate_field_raised _) (ex_intro _ ec Hc)) as [Hn Hs].
      exists d, "contract_address", (dict_get d "contract_address").
      split; [reflexivity|]. split; [repeat constructor|]. auto.
  - intros [(v & -> & Hn & Hd)|(d & name & v & -> & Hname & Hv & Hn & Hs)].
    + destruct v; simpl; eauto; [destruct Hn|destruct (Hd d)]; reflexivity.
    + assert (Hr : exists ex, validate_field (dict_get d name) = Raised ex).
      { apply validate_field_raised. unfold dict_get. rewrite Hv. auto. }
      destruct Hr as [ex Hr]. rewrite from_dict_dict.
      unfold __properties in Hname.
      repeat (apply elem_of_cons in Hname as [->|Hname];
              [repeat match goal with
                      | |- context [validate_field ?w] =>
                          destruct (validate_field w); simpl;
                          try discriminate; eauto
                      end|]).
      apply elem_of_nil in Hname. destruct Hname.
Qed.

(** X8: [from_dict] returns [None] for [None] and for nothing else. *)
Theorem from_dict_none_iff (obj : object) :
  from_dict obj = Returned None <-> obj = PyNone.
Proof.
  split; [|intros ->; reflexivity].
  destruct obj as [v|self]; [|discriminate].
  destruct v; try discriminate; [reflexivity|].
  rewrite from_dict_dict.
  repeat match goal with
         | |- context [validate_field ?w] => destruct (validate_field w); simpl
         end; discriminate.
Qed.

(** X9: [from_dict] reads the three properties and nothing else, and does
    not tell a missing key from a key that holds [None]: two dicts that
    [get] the same values for the three properties give the same result. *)
Theorem from_dict_reads_properties_only (d d' : gmap string pyvalue) :
  (forall name, name ∈ __properties -> dict_get d name = dict_get d' name) ->
  from_dict (PyDict d) = from_dict (PyDict d').
Proof.
  intros H. rewrite !from_dict_dict.
  rewrite (H "contract_address"), (H "from_address"), (H "to_address");
    [reflexivity|repeat constructor..].
Qed.

(** X10: Serializing what [from_dict] read gives back the entries of the
    input that belong to the three properties and are not [None]; on an
    input made of such entries only, it gives back the input. *)
Theorem to_dict_from_dict (d : gmap string pyvalue) (y : WebhookEventFilter) :
  from_dict (PyDict d) = Returned (Some y) ->
  (forall name,
     to_dict y !! name
     = if decide (name ∈ __properties)
       then match d !! name with
            | Some PyNone => None
            | entry => entry
            end
       else None)
  /\ ((forall name v, d !! name = Some v -> name ∈ __properties /\ v <> PyNone) ->
      to_dict y = d).
Proof.
  intros H. apply from_dict_returned in H as [Hf _].
  assert (Hlookup : forall name,
            to_dict y !! name
            = if decide (name ∈ __properties)
              then match d !! name with
                   | Some PyNone => None
                   | entry => entry
                   end
              else None).
  { intros name. rewrite to_dict_lookup. case_decide as Hname.
    - specialize (Hf name Hname). unfold dict_get in Hf.
      destruct (field y name) as [s|]; simpl in *.
      + destruct (d !! name) as [v|]; simpl in Hf; subst; [reflexivity|discriminate].
      + destruct (d !! name) as [v|]; simpl in Hf; subst; reflexivity.
    - unfold field. repeat case_decide; subst; try reflexivity;
        destruct Hname; repeat constructor. }
  split; [exact Hlookup|].
  intros Hd. apply map_eq. intros name. rewrite Hlookup.
  destruct (d !! name) as [v|] eqn:Hv.
  - destruct (Hd name v Hv) as [Hname Hn].
    rewrite decide_True by exact Hname. destruct v; congruence.
  - case_decide; reflexivity.
Qed.

(** X11: The serialization determines the field values: two instances have
    the same [to_dict] exactly when they are equal. *)
Theorem to_dict_inj (x y : WebhookEventFilter) :
  to_dict x = to_dict y <-> model_eq x y.
Proof.
  split.
  - intros H.
    assert (Hf : forall name, field x name = field y name).
    { intros name. apply (f_equal (fun m => m !! name)) in H.
      rewrite !to_dict_lookup in H.
      destruct (field x name), (field y name); simpl in H; congruence. }
    repeat split;
      [exact (Hf "contract_address")|exact (Hf "from_address")|exact (Hf "to_address")].
  - intros (Hc & Hf & Ht). apply map_eq. intros name.
    rewrite !to_dict_lookup. unfold field. rewrite Hc, Hf, Ht. reflexivity.
Qed.

(** X12: Every entry of the serialization is one of the three properties,
    holds a [str], and is the value of that field. *)
Theorem to_dict_entries (x : WebhookEventFilter) (name : string) (v : pyvalue) :
  to_dict x !! name = Some v ->
  name ∈ __properties /\ exists s, field x name = Some s /\ v = PyStr s.
Proof.
  rewrite to_dict_lookup. unfold field. intros H.
  repeat case_decide; subst; try discriminate;
    (split; [repeat constructor|]);
    match type of H with
    | PyStr <$> ?o = _ => destruct o; [injection H as <-; eauto|discriminate]
    end.
Qed.

(** X13: Whatever keys the input has, the instance [from_dict] builds counts
    all three fields as set. *)
Theorem from_dict_fields_set (d : gmap string pyvalue) (y : WebhookEventFilter) :
  from_dict (PyDict d) = Returned (Some y) ->
  model_fields_set y = {[ "contract_address"; "from_address"; "to_address" ]}.
Proof.
  intros H. apply from_dict_returned in H as [_ ->]. by_evaluation.
Qed.

Section JsonTextFacts.

Variable json_loads : string -> result pyvalue.

(** X14: [from_json] on a text that decodes to the serialization of an
    instance gives an instance equal to it; so [from_json] undoes
    [to_json] wherever [json.loads] undoes [json.dumps]. *)
Theorem from_json_of_to_dict (x : WebhookEventFilter) (json_str : string) :
  json_loads json_str = Returned (PyDict (to_dict x)) ->
  exists y, from_json json_loads json_str = Returned (Some y) /\ model_eq y x.
Proof.
  intros H. unfold from_json. rewrite H. simpl.
  exists {| contract_address := contract_address x;
            from_address := from_address x;
            to_address := to_address x;
            model_fields_set := list_to_set __properties |}.
  split; [|repeat split].
  apply from_dict_returned. split; [|reflexivity].
  intros name _. unfold dict_get. rewrite to_dict_lookup. reflexivity.
Qed.

(** X15: [from_json] lets the error of [json.loads] escape, and returns
    [None] exactly on a text that decodes to [null]. *)
Theorem from_json_edges (json_str : string) :
  (forall ex, json_loads json_str = Raised ex ->
              from_json json_loads json_str = Raised ex)
  /\ (from_json json_loads json_str = Returned None
      <-> json_loads json_str = Returned PyNone).
Proof.
  unfold from_json. split.
  - intros ex ->. reflexivity.
  - destruct (json_loads json_str) as [v|ex]; simpl.
    + rewrite (from_dict_none_iff (Value v)). split; congruence.
    + split; discriminate.
Qed.

End JsonTextFacts.

End webhook_event_filter_more.

(** * The further properties on concrete inputs *)

Lemma from_error_returned_invariant_witness :
  exists e,
    from_error json.loads APIError
      (failure 404 "{'code':'not_found','message':'wallet not found'}") = Returned e
    /\ http_code e = 404
    /\ hashable (api_code e) = true
    /\ ((class_of e = APIError /\ handled e = false)
        \/ exists C,
             api_code e = PyStr C
             /\ ERROR_CODE_TO_ERROR_CLASS !! C = Some (class_of e)
             /\ handled e = truthy (api_message e)).
Proof.
  eexists. split.
  - vm_compute. reflexivity.
  - apply (from_error_returned_invariant json.loads APIError
             {| status := 404;
                body := Some (quoted "{'code':'not_found','message':'wallet not found'}") |}).
    vm_compute. reflexivity.
Defined.

(** [NotFoundError.from_error] on a body with no code: an unhandled
    [NotFoundError]. *)
Lemma from_error_fallback_witness :
  from_error json.loads NotFoundError
    (IsApiException {| status := 503; body := Some (quoted "{'message':'try later'}") |})
  = Returned {| class_of := NotFoundError;
                _http_code := 503;
                _api_code := PyNone;
                _api_message := PyStr "try later";
                _handled := false |}.
Proof.
  refine (from_error_fallback json.loads NotFoundError 503
            (quoted "{'message':'try later'}")
            {[ "message" := PyStr "try later" ]} _ _ _ _).
  - discriminate.
  - vm_compute. reflexivity.
  - reflexivity.
  - intros C H. vm_compute in H. discriminate.
Defined.

(** Two errors of different classes and the same attributes render the
    same, and are told apart in nothing that is rendered. *)
Lemma str_unambiguous_witness :
  let e1 := {| class_of := NotFoundError; _http_code := 404;
               _api_code := PyStr "not_found"; _api_message := PyStr "gone";
               _handled := true |} in
  let e2 := {| class_of := APIError; _http_code := 404;
               _api_code := PyStr "not_found"; _api_message := PyStr "gone";
               _handled := true |} in
  handled e1 = handled e2
  /\ http_code e1 = http_code e2
  /\ py_str (fun _ => "") (api_code e1) = py_str (fun _ => "") (api_code e2)
  /\ py_str (fun _ => "") (api_message e1) = py_str (fun _ => "") (api_message e2).
Proof.
  apply (str_unambiguous (fun _ => "")
           {| class_of := NotFoundError; _http_code := 404;
              _api_code := PyStr "not_found"; _api_message := PyStr "gone";
              _handled := true |}
           {| class_of := APIError; _http_code := 404;
              _api_code := PyStr "not_found"; _api_message := PyStr "gone";
              _handled := true |});
    [by_evaluation..|reflexivity].
Defined.

(** A key that names no property is ignored, and a missing key reads as
    a key that holds [None]. *)
Lemma from_dict_reads_properties_only_witness :
  webhook_event_filter.from_dict
    (PyDict {[ "from_address" := PyStr "0xabc"; "label" := PyInt 7 ]})
  = webhook_event_filter.from_dict
      (PyDict {[ "from_address" := PyStr "0xabc"; "to_address" := PyNone ]}).
Proof.
  apply webhook_event_filter_more.from_dict_reads_properties_only.
  intros name Hname. unfold webhook_event_filter.__properties in Hname.
  repeat (apply elem_of_cons in Hname as [->|Hname]; [vm_compute; reflexivity|]).
  apply elem_of_nil in Hname. destruct Hname.
Defined.

Lemma to_dict_from_dict_witness :
  webhook_event_filter.to_dict
    {| webhook_event_filter.contract_address := None;
       webhook_event_filter.from_address := Some "0xabc";
       webhook_event_filter.to_address := None;
       webhook_event_filter.model_fields_set :=
         list_to_set webhook_event_filter.__properties |}
  = {[ "from_address" := PyStr "0xabc" ]}.
Proof.
  apply (webhook_event_filter_more.to_dict_from_dict
           {[ "from_address" := PyStr "0xabc" ]}).
  - vm_compute. reflexivity.
  - intros name v Hv. apply lookup_singleton_Some in Hv as [<- <-].
    split; [repeat constructor|discriminate].
Defined.

Lemma to_dict_entries_witness :
  "from_address" ∈ webhook_event_filter.__properties
  /\ exists s,
       webhook_event_filter.field
         {| webhook_event_filter.contract_address := None;
            webhook_event_filter.from_address := Some "0xabc";
            webhook_event_filter.to_address := None;
            webhook_event_filter.model_fields_set := {[ "from_address" ]} |}
         "from_address" = Some s
       /\ PyStr "0xabc" = PyStr s.
Proof.
  apply webhook_event_filter_more.to_dict_entries.
  vm_compute. reflexivity.
Defined.

Lemma from_dict_fields_set_witness :
  exists y,
    webhook_event_filter.from_dict (PyDict {[ "from_address" := PyStr "0xabc" ]})
    = Returned (Some y)
    /\ webhook_event_filter.model_fields_set y
       = {[ "contract_address"; "from_address"; "to_address" ]}.
Proof.
  eexists. split.
  - vm_compute. reflexivity.
  - apply (webhook_event_filter_more.from_dict_fields_set
             {[ "from_address" := PyStr "0xabc" ]}).
    vm_compute. reflexivity.
Defined.

Lemma from_json_of_to_dict_witness :
  exists y,
    webhook_event_filter.from_json json.loads
      (quoted "{'from_address': '0xabc'}") = Returned (Some y)
    /\ webhook_event_filter.model_eq y
         {| webhook_event_filter.contract_address := None;
            webhook_event_filter.from_address := Some "0xabc";
            webhook_event_filter.to_address := None;
            webhook_event_filter.model_fields_set := {[ "from_address" ]} |}.
Proof.
  apply webhook_event_filter_more.from_json_of_to_dict.
  vm_compute. reflexivity.
Defined.

(** * The class [from_error] is called on *)

Section ClassifierClass.

Variable json_loads : string -> result pyvalue.

Lemma unhandled_never_handled (code message : pyvalue) :
  truthy (py_and code (py_and message (py_not (PyBool true)))) = false.
Proof.
  unfold py_and, py_not.
  destruct (truthy code) eqn:Hc; [|exact Hc].
  destruct (truthy message) eqn:Hm; [reflexivity|exact Hm].
Qed.

(** X4: The class [from_error] is called on matters only as the fallback:
    called on two classes with the same argument, it raises the same
    exception, or returns two errors with the same attributes, which are
    of the same class unless both are unhandled fallbacks. *)
Theorem from_error_class_independent (cls1 cls2 : error_class) (arg : argument) :
  match from_error json_loads cls1 arg, from_error json_loads cls2 arg with
  | Returned e1, Returned e2 =>
      http_code e1 = http_code e2 /\ api_code e1 = api_code e2
      /\ api_message e1 = api_message e2 /\ handled e1 = handled e2
      /\ (class_of e1 = class_of e2
          \/ (class_of e1 = cls1 /\ class_of e2 = cls2 /\ handled e1 = false))
  | Raised ex1, Raised ex2 => ex1 = ex2
  | _, _ => False
  end.
Proof.
  destruct arg as [[S b]|obj]; [|reflexivity]. unfold from_error; simpl.
  destruct b as [raw|]; [|repeat split; right; auto].
  destruct raw as [|a raw]; [repeat split; right; auto|].
  destruct (json_loads (String a raw)) as [v|ex];
    [|destruct ex; try reflexivity; repeat split; right; auto].
  destruct v as [| | | | |l|d]; simpl; try reflexivity.
  destruct (default PyNone (d !! "code")) as [| | | |C| |]; simpl;
    try reflexivity;
    try solve [repeat split; right; repeat split; apply unhandled_never_handled].
  destruct (ERROR_CODE_TO_ERROR_CLASS !! C) as [cls'|] eqn:Hreg.
  - rewrite !bool_decide_eq_true_2 by eauto. simpl. repeat split. left. reflexivity.
  - rewrite !bool_decide_eq_false_2 by (intros [? ?]; discriminate). simpl.
    repeat split. right. repeat split. apply unhandled_never_handled.
Qed.


End ClassifierClass.

